(** * Profile store service (backend/server.js)

    A shallow embedding of the Express handlers of [backend/server.js]
    and of the parts of the platform they call (string methods,
    [path.extname], [fs.promises], the multer upload middleware,
    [Array.prototype.sort]), followed by the properties of the profile
    store that the handlers do and do not guarantee.

    Modelling conventions.
    - A JavaScript string is a [string]; one character stands for one
      UTF-16 code unit in the range 0..255.
    - A metadata record is a JSON object whose fields hold text or [null],
      the two kinds of value the service itself writes; it is a finite
      map from property names to values, an absent key reading as
      [undefined].
    - The content of a file is either the serialisation of such a record
      or a sequence of bytes on which [JSON.parse] throws.  Contents that
      parse to other JSON (a number, an array, nested values) are not
      modelled: no handler writes them.
    - The file system is the profiles directory (absent, or a map from
      entry names to plain files and directories of files) and the
      staging directory [temp].  Ids and file names denote directory
      entries: a single path segment, neither empty nor [.] nor [..].
    - A thrown exception is the outcome [Throw]; the state reached before
      the throw is kept, as the [catch] blocks of the handlers see it. *)

From Stdlib Require Import ZArith Lia Ascii String List Permutation Sorted.
From stdpp Require Import base option list gmap strings fin_maps.

Local Open Scope string_scope.

(** ** String methods *)

Module JS.

(** White space and line terminators of [String.prototype.trim] among the
    code units below 256: TAB, LF, VT, FF, CR, SP and NBSP. *)
Definition is_ws (c : ascii) : bool :=
  let n := nat_of_ascii c in
  (Nat.leb 9 n && Nat.leb n 13) || Nat.eqb n 32 || Nat.eqb n 160.

Fixpoint trimStart (s : string) : string :=
  match s with
  | String c s' => if is_ws c then trimStart s' else s
  | EmptyString => EmptyString
  end.

(** [trimEnd] keeps a character when it is not white space or when
    something other than white space follows it. *)
Fixpoint trimEnd (s : string) : string :=
  match s with
  | String c s' =>
      match trimEnd s' with
      | EmptyString => if is_ws c then EmptyString else String c EmptyString
      | t => String c t
      end
  | EmptyString => EmptyString
  end.

Definition trim (s : string) : string := trimEnd (trimStart s).

(** [String.prototype.toLowerCase] on code units below 256: the letters
    A-Z and the Latin-1 capitals (0xC0-0xDE without the multiplication
    sign 0xD7) move up by 32. *)
Definition lower_char (c : ascii) : ascii :=
  let n := nat_of_ascii c in
  if (Nat.leb 65 n && Nat.leb n 90)
     || (Nat.leb 192 n && Nat.leb n 222 && negb (Nat.eqb n 215))
  then ascii_of_nat (n + 32) else c.

Fixpoint toLowerCase (s : string) : string :=
  match s with
  | String c s' => String (lower_char c) (toLowerCase s')
  | EmptyString => EmptyString
  end.

Definition startsWith (s p : string) : bool := String.prefix p s.

(** [s.substring(0, n)] *)
Definition substring0 (n : nat) (s : string) : string := String.substring 0 n s.

(** [s.slice(a, b)] for [0 <= a <= b]. *)
Definition slice (a b : nat) (s : string) : string := String.substring a (b - a) s.

(** [!s] for a form field: [undefined] and the empty string are falsy,
    every other string is truthy. *)
Definition falsy (s : option string) : bool :=
  match s with
  | None => true
  | Some EmptyString => true
  | Some _ => false
  end.

End JS.

(** ** [path.extname] (POSIX)

    Node scans the path from its end: trailing separators are skipped,
    the scan stops at the separator before the last segment, [startDot]
    is the right-most dot of that segment and [preDotState] records
    whether anything other than dots comes before it. *)

Module Path.

Record scan := {
  startDot : option nat;
  startPart : nat;
  endPart : option nat;
  matchedSlash : bool;
  preDotState : Z
}.

Definition scan0 : scan :=
  {| startDot := None; startPart := 0; endPart := None;
     matchedSlash := true; preDotState := 0 |}.

Definition charAt (p : string) (i : nat) : ascii :=
  match String.get i p with Some c => c | None => zero end.

(** The loop [for (i = path.length - 1; i >= 0; --i)], with [n = i + 1]. *)
Fixpoint scan_from (p : string) (n : nat) (st : scan) : scan :=
  match n with
  | O => st
  | S i =>
      let code := charAt p i in
      if Ascii.eqb code "/" then
        if negb (matchedSlash st) then
          {| startDot := startDot st; startPart := i + 1; endPart := endPart st;
             matchedSlash := matchedSlash st; preDotState := preDotState st |}
        else scan_from p i st
      else
        let st1 :=
          match endPart st with
          | None =>
              {| startDot := startDot st; startPart := startPart st;
                 endPart := Some (i + 1); matchedSlash := false;
                 preDotState := preDotState st |}
          | Some _ => st
          end in
        let st2 :=
          if Ascii.eqb code "." then
            match startDot st1 with
            | None =>
                {| startDot := Some i; startPart := startPart st1;
                   endPart := endPart st1; matchedSlash := matchedSlash st1;
                   preDotState := preDotState st1 |}
            | Some _ =>
                {| startDot := startDot st1; startPart := startPart st1;
                   endPart := endPart st1; matchedSlash := matchedSlash st1;
                   preDotState := 1 |}
            end
          else
            match startDot st1 with
            | Some _ =>
                {| startDot := startDot st1; startPart := startPart st1;
                   endPart := endPart st1; matchedSlash := matchedSlash st1;
                   preDotState := (-1) |}
            | None => st1
            end in
        scan_from p i st2
  end.

Definition extname (p : string) : string :=
  let st := scan_from p (String.length p) scan0 in
  match startDot st, endPart st with
  | Some d, Some e =>
      if Z.eqb (preDotState st) 0
         || (Z.eqb (preDotState st) 1 && Nat.eqb d (e - 1)
             && Nat.eqb d (startPart st + 1))
      then "" else JS.slice d e p
  | _, _ => ""
  end.

End Path.

(** ** Stored data *)

(** A JSON value held by a field of a metadata record. *)
Inductive jsval :=
  | JNull
  | JStr (s : string).

(** The content of a file: the text of a JSON object, or bytes that
    [JSON.parse] rejects with a [SyntaxError]. *)
Inductive content :=
  | CJson (r : gmap string jsval)
  | CRaw (bytes : string).

(** An entry of the profiles directory. *)
Inductive node :=
  | NFile (c : content)
  | NDir (d : gmap string content).

Record fsys := {
  profiles : option (gmap string node);
  temp : gmap string content
}.

Inductive path :=
  | PProfilesDir
  | PProfile (id : string)
  | PEntry (id name : string)
  | PTemp (name : string).

Definition profilesDir : path := PProfilesDir.
Definition getProfilePath (id : string) : path := PProfile id.
Definition getPhotoPath (id photoName : string) : path := PEntry id photoName.
Definition getJsonPath (id : string) : path := PEntry id "profile.json".

(** The directory [profilesDir/id], when it exists and is a directory. *)
Definition dir_of (fs : fsys) (id : string) : option (gmap string content) :=
  match profiles fs with
  | Some m => match m !! id with Some (NDir d) => Some d | _ => None end
  | None => None
  end.

Definition file_of (fs : fsys) (id name : string) : option content :=
  match dir_of fs id with Some d => d !! name | None => None end.

Definition set_dir (fs : fsys) (id : string) (d : gmap string content) : fsys :=
  {| profiles := Some (<[id := NDir d]> (default ∅ (profiles fs)));
     temp := temp fs |}.

(** ** Exceptions and state *)

Inductive outcome (A : Type) :=
  | Ok (a : A)
  | Throw.
Arguments Ok {A} a.
Arguments Throw {A}.

Definition io (A : Type) : Type := fsys → fsys * outcome A.

#[export] Instance io_ret : MRet io := λ A a fs, (fs, Ok a).
#[export] Instance io_bind : MBind io := λ A B k m fs,
  match m fs with
  | (fs', Ok a) => k a fs'
  | (fs', Throw) => (fs', Throw)
  end.

Definition throw {A} : io A := λ fs, (fs, Throw).
Definition get_fs : io fsys := λ fs, (fs, Ok fs).
Definition put_fs (fs' : fsys) : io unit := λ _, (fs', Ok tt).

(** ** [fs.promises] *)

Module Fs.

(** [fs.access]: does the path resolve? *)
Definition access (p : path) (fs : fsys) : bool :=
  match p with
  | PProfilesDir => bool_decide (is_Some (profiles fs))
  | PProfile id =>
      match profiles fs with
      | Some m => bool_decide (is_Some (m !! id))
      | None => false
      end
  | PEntry id name => bool_decide (is_Some (file_of fs id name))
  | PTemp name => bool_decide (is_Some (temp fs !! name))
  end.

(** [fs.mkdir(p, { recursive: true })]: creates the missing directories,
    accepts an existing directory, fails on an existing plain file. *)
Definition mkdir (p : path) : io unit :=
  match p with
  | PProfilesDir =>
      fs ← get_fs;
      match profiles fs with
      | Some _ => mret tt
      | None => put_fs {| profiles := Some ∅; temp := temp fs |}
      end
  | PProfile id =>
      fs ← get_fs;
      match default ∅ (profiles fs) !! id with
      | None => put_fs (set_dir fs id ∅)
      | Some (NDir _) => mret tt
      | Some (NFile _) => throw
      end
  | _ => throw
  end.

(** [fs.rename(src, dst)] of a staged upload into a profile directory:
    fails when the source or the target directory is missing, replaces a
    file already at the target. *)
Definition rename (src dst : path) : io unit :=
  match src, dst with
  | PTemp t, PEntry id name =>
      fs ← get_fs;
      match temp fs !! t, dir_of fs id with
      | Some c, Some d =>
          put_fs {| profiles := profiles (set_dir fs id (<[name := c]> d));
                    temp := delete t (temp fs) |}
      | _, _ => throw
      end
  | _, _ => throw
  end.

(** [fs.writeFile(p, text)]: creates or overwrites the file; the
    directory must exist. *)
Definition writeFile (p : path) (c : content) : io unit :=
  match p with
  | PEntry id name =>
      fs ← get_fs;
      match dir_of fs id with
      | Some d => put_fs (set_dir fs id (<[name := c]> d))
      | None => throw
      end
  | _ => throw
  end.

Definition readFile (p : path) : io content :=
  match p with
  | PEntry id name =>
      fs ← get_fs;
      match file_of fs id name with
      | Some c => mret c
      | None => throw
      end
  | _ => throw
  end.

Definition unlink (p : path) : io unit :=
  match p with
  | PEntry id name =>
      fs ← get_fs;
      match dir_of fs id with
      | Some d =>
          match d !! name with
          | Some _ => put_fs (set_dir fs id (delete name d))
          | None => throw
          end
      | None => throw
      end
  | _ => throw
  end.

(** [fs.rm(p, { recursive: true, force: true })] *)
Definition rm (p : path) : io unit :=
  match p with
  | PProfile id =>
      fs ← get_fs;
      match profiles fs with
      | Some m => put_fs {| profiles := Some (delete id m); temp := temp fs |}
      | None => mret tt
      end
  | _ => throw
  end.

(** [fs.readdir(profilesDir)]: the entry names, in the order the
    platform lists them. *)
Definition readdir (p : path) : io (list string) :=
  match p with
  | PProfilesDir =>
      fs ← get_fs;
      match profiles fs with
      | Some m => mret ((map_to_list m).*1)
      | None => throw
      end
  | _ => throw
  end.

End Fs.

(** [pathExists] of server.js: [fs.access] with its failure caught. *)
Definition pathExists (p : path) : io bool := λ fs, (fs, Ok (Fs.access p fs)).

(** ** JSON and JavaScript objects *)

Module JSON.

Definition parse (c : content) : io (gmap string jsval) :=
  match c with
  | CJson r => mret r
  | CRaw _ => throw
  end.

Definition stringify (r : gmap string jsval) : content := CJson r.

End JSON.

(** [o.k = v] followed only by [JSON.stringify]: a property set to
    [undefined] is left out of the serialisation. *)
Definition set_prop (k : string) (v : option jsval) (o : gmap string jsval)
  : gmap string jsval :=
  match v with
  | Some x => <[k := x]> o
  | None => delete k o
  end.

(** A value inside a template literal. *)
Definition to_str (v : option jsval) : string :=
  match v with
  | None => "undefined"
  | Some JNull => "null"
  | Some (JStr s) => s
  end.

(** [s.trim()] on a form field: a [TypeError] when the field is
    [undefined]. *)
Definition trim_field (s : option string) : io string :=
  match s with
  | Some x => mret (JS.trim x)
  | None => throw
  end.

(** [contact ? contact.trim() : null] *)
Definition contact_value (contact : option string) : jsval :=
  if JS.falsy contact then JNull
  else match contact with Some c => JStr (JS.trim c) | None => JNull end.

(** ** Requests and responses *)

(** The text fields of [req.body]; [None] is a field the form lacks. *)
Record form := {
  body_name : option string;
  body_address : option string;
  body_contact : option string;
  body_date : option string;
  body_note : option string
}.

(** The file part of a multipart request, as the client sends it. *)
Record upload := {
  originalname : string;
  mimetype : string;
  size : N;
  data : content
}.

(** [req.file] once multer has stored the upload in [temp]. *)
Record stored_file := {
  file_originalname : string;
  file_path : string
}.

(** What the platform supplies to one request: the result of [uuidv4()],
    the [Date.now()]-and-random prefix of the staging file name, and the
    results of the successive [new Date().toISOString()] calls. *)
Record env := {
  uuid : string;
  uniqueTag : string;
  now1 : string;
  now2 : string
}.

(** A list entry, as [GET /api/profiles] builds it; [id], [name] and
    [date] are copied from the record, whatever they are. *)
Record summary := {
  sum_id : option jsval;
  sum_name : option jsval;
  sum_date : option jsval;
  sum_photo : string;
  sum_note : string
}.

Inductive body :=
  | BSuccess (id link message : string)
  | BDeleted (message : string)
  | BFailure (error : string)
  | BProfiles (l : list summary)
  | BProfile (r : gmap string jsval).

Record response := {
  status : nat;
  payload : body
}.

Definition json (b : body) : response := {| status := 200; payload := b |}.
Definition failure (code : nat) (msg : string) : response :=
  {| status := code; payload := BFailure msg |}.

(** [try { ... } catch (error) { res.status(500).json(...) }] *)
Definition try_catch (h : io response) (msg : string) (fs : fsys)
  : fsys * response :=
  match h fs with
  | (fs', Ok r) => (fs', r)
  | (fs', Throw) => (fs', failure 500 msg)
  end.

(** ** Multer *)

Inductive upload_error :=
  | FilterError
  | LimitFileSize.

Definition fileFilter (f : upload) : bool := JS.startsWith (mimetype f) "image/".

Definition fileSize : N := 5 * 1024 * 1024.

(** [filename] of the disk storage. *)
Definition uniqueName (e : env) (f : upload) : string :=
  uniqueTag e ++ Path.extname (originalname f).

(** [upload.single('photo')]: no file part leaves [req.file] undefined; a
    file part the filter refuses is not stored; a file over the size limit
    is removed from [temp] again; any other file is stored in [temp]. *)
Definition upload_single (e : env) (f : option upload) (fs : fsys)
  : fsys * (upload_error + option stored_file) :=
  match f with
  | None => (fs, inr None)
  | Some f =>
      if negb (fileFilter f) then (fs, inl FilterError)
      else if N.ltb fileSize (size f) then
        ({| profiles := profiles fs; temp := delete (uniqueName e f) (temp fs) |},
         inl LimitFileSize)
      else
        ({| profiles := profiles fs;
            temp := <[uniqueName e f := data f]> (temp fs) |},
         inr (Some {| file_originalname := originalname f;
                      file_path := uniqueName e f |}))
  end.

(** The error-handling middleware at the end of server.js. *)
Definition error_middleware (err : upload_error) : response :=
  match err with
  | LimitFileSize => failure 400 "File too large. Max 5MB"
  | FilterError => failure 500 "Internal server error"
  end.

(** ** Handlers *)

Definition link_of (id : string) : string := "/profile.html?id=" ++ id.

Definition photoUrl (data : gmap string jsval) : string :=
  "/images/" ++ to_str (data !! "id") ++ "/" ++ to_str (data !! "photo").

(** [req.file.originalname] and [req.file.path]: a [TypeError] when
    [req.file] is [undefined]. *)
Definition req_file (file : option stored_file) : io stored_file :=
  match file with
  | Some f => mret f
  | None => throw
  end.

(** 1. Create profile *)
Definition create_handler (e : env) (b : form) (file : option stored_file)
  : io response :=
  if JS.falsy (body_name b) || JS.falsy (body_address b)
     || JS.falsy (body_date b) || JS.falsy (body_note b)
     || negb (bool_decide (is_Some file))
  then mret (failure 400 "All fields are required")
  else
    let id := uuid e in
    let profilePath := getProfilePath id in
    Fs.mkdir profilePath;;
    f ← req_file file;
    let photoExt := JS.toLowerCase (Path.extname (file_originalname f)) in
    let photoName := "photo" ++ photoExt in
    let photoPath := getPhotoPath id photoName in
    Fs.rename (PTemp (file_path f)) photoPath;;
    name ← trim_field (body_name b);
    address ← trim_field (body_address b);
    note ← trim_field (body_note b);
    let profileData :=
      set_prop "updatedAt" (Some (JStr (now2 e)))
      (set_prop "createdAt" (Some (JStr (now1 e)))
      (set_prop "note" (Some (JStr note))
      (set_prop "date" (JStr <$> body_date b)
      (set_prop "photo" (Some (JStr photoName))
      (set_prop "contact" (Some (contact_value (body_contact b)))
      (set_prop "address" (Some (JStr address))
      (set_prop "name" (Some (JStr name))
      (set_prop "id" (Some (JStr id)) ∅)))))))) in
    Fs.writeFile (getJsonPath id) (JSON.stringify profileData);;
    mret (json (BSuccess id (link_of id) "Profile created successfully")).

(** [Array.prototype.sort(comparefn)].  ECMAScript fixes the result
    whenever [comparefn] is a consistent comparator: the elements in the
    order of [comparefn], equal ones in their original order.  A stable
    insertion sort computes it.  A comparator result of [NaN], here
    [None], counts as [+0]. *)
Section Sort.
Context {A : Type} (comparefn : A → A → option Z).

Definition before (a b : A) : bool := (default 0 (comparefn a b) <? 0)%Z.

Fixpoint insert_sorted (x : A) (l : list A) : list A :=
  match l with
  | [] => [x]
  | y :: l' => if before x y then x :: y :: l' else y :: insert_sorted x l'
  end.

Definition sort (l : list A) : list A :=
  foldl (λ acc x, insert_sorted x acc) [] l.
End Sort.

(** 2. Get all profiles.  [Date_parse] is the platform's reading of a date
    string as a time value in milliseconds, [None] for an invalid date. *)
Section Listing.
Variable Date_parse : string → option Z.

(** The time value of [new Date(v)]. *)
Definition time_value (v : option jsval) : option Z :=
  match v with
  | None => None
  | Some JNull => Some 0%Z
  | Some (JStr s) => Date_parse s
  end.

(** [(a, b) => new Date(b.date) - new Date(a.date)] *)
Definition by_date (a b : summary) : option Z :=
  tb ← time_value (sum_date b);
  ta ← time_value (sum_date a);
  Some (tb - ta)%Z.

(** [data.note.substring(0, 50) + (data.note.length > 50 ? '...' : '')] *)
Definition short_note (note : string) : string :=
  JS.substring0 50 note ++ (if Nat.ltb 50 (String.length note) then "..." else "").

(** The object pushed for one record; reading [substring] off a note
    that is not a string is a [TypeError]. *)
Definition summarize (data : gmap string jsval) : io summary :=
  match data !! "note" with
  | Some (JStr note) =>
      mret {| sum_id := data !! "id";
              sum_name := data !! "name";
              sum_date := data !! "date";
              sum_photo := photoUrl data;
              sum_note := short_note note |}
  | _ => throw
  end.

(** [for (const folder of folders) { ... }] *)
Fixpoint scan_folders (folders : list string) (acc : list summary)
  : io (list summary) :=
  match folders with
  | [] => mret acc
  | folder :: rest =>
      let jsonPath := getJsonPath folder in
      found ← pathExists jsonPath;
      if (found : bool) then
        text ← Fs.readFile jsonPath;
        data ← JSON.parse text;
        s ← summarize data;
        scan_folders rest (acc ++ [s])
      else scan_folders rest acc
  end.

Definition list_handler : io response :=
  found ← pathExists profilesDir;
  found_profiles ←
    (if (found : bool) then
       folders ← Fs.readdir profilesDir;
       scan_folders folders []
     else mret []);
  mret (json (BProfiles (sort by_date found_profiles))).
End Listing.

(** 3. Get single profile *)
Definition get_handler (id : string) : io response :=
  let jsonPath := getJsonPath id in
  found ← pathExists jsonPath;
  if (found : bool) then
    text ← Fs.readFile jsonPath;
    data ← JSON.parse text;
    mret (json (BProfile (<["photoUrl" := JStr (photoUrl data)]> data)))
  else mret (failure 404 "Profile not found").

(** The branch [if (req.file)] of the update handler. *)
Definition replace_photo (id : string) (existingData : gmap string jsval)
    (f : stored_file) : io (gmap string jsval) :=
  match existingData !! "photo" with
  | Some (JStr oldPhoto) =>
      let oldPhotoPath := getPhotoPath id oldPhoto in
      found ← pathExists oldPhotoPath;
      (if (found : bool) then Fs.unlink oldPhotoPath else mret tt);;
      let photoExt := JS.toLowerCase (Path.extname (file_originalname f)) in
      let newPhotoName := "photo" ++ photoExt in
      let newPhotoPath := getPhotoPath id newPhotoName in
      Fs.rename (PTemp (file_path f)) newPhotoPath;;
      mret (set_prop "photo" (Some (JStr newPhotoName)) existingData)
  | _ => throw
  end.

(** 4. Update profile *)
Definition update_handler (e : env) (id : string) (b : form)
    (file : option stored_file) : io response :=
  let jsonPath := getJsonPath id in
  found ← pathExists jsonPath;
  if negb found then mret (failure 404 "Profile not found")
  else
    text ← Fs.readFile jsonPath;
    existingData ← JSON.parse text;
    name ← trim_field (body_name b);
    let existingData := set_prop "name" (Some (JStr name)) existingData in
    address ← trim_field (body_address b);
    let existingData := set_prop "address" (Some (JStr address)) existingData in
    let existingData :=
      set_prop "contact" (Some (contact_value (body_contact b))) existingData in
    let existingData := set_prop "date" (JStr <$> body_date b) existingData in
    note ← trim_field (body_note b);
    let existingData := set_prop "note" (Some (JStr note)) existingData in
    let existingData := set_prop "updatedAt" (Some (JStr (now1 e))) existingData in
    existingData ←
      match file with
      | Some f => replace_photo id existingData f
      | None => mret existingData
      end;
    Fs.writeFile jsonPath (JSON.stringify existingData);;
    mret (json (BSuccess id (link_of id) "Profile updated successfully")).

(** 5. Delete profile *)
Definition delete_handler (id : string) : io response :=
  let profilePath := getProfilePath id in
  found ← pathExists profilePath;
  if (found : bool) then
    Fs.rm profilePath;;
    mret (json (BDeleted "Profile deleted successfully"))
  else mret (failure 404 "Profile not found").

(** ** Routes *)

(** [app.post('/api/profiles', upload.single('photo'), ...)] *)
Definition post_profiles (e : env) (b : form) (f : option upload) (fs : fsys)
  : fsys * response :=
  match upload_single e f fs with
  | (fs', inr file) =>
      try_catch (create_handler e b file) "Failed to create profile" fs'
  | (fs', inl err) => (fs', error_middleware err)
  end.

(** [app.get('/api/profiles', ...)] *)
Definition get_profiles (Date_parse : string → option Z) (fs : fsys)
  : fsys * response :=
  try_catch (list_handler Date_parse) "Failed to fetch profiles" fs.

(** [app.get('/api/profiles/:id', ...)] *)
Definition get_profile (id : string) (fs : fsys) : fsys * response :=
  try_catch (get_handler id) "Failed to fetch profile" fs.

(** [app.put('/api/profiles/:id', upload.single('photo'), ...)] *)
Definition put_profile (e : env) (id : string) (b : form) (f : option upload)
    (fs : fsys) : fsys * response :=
  match upload_single e f fs with
  | (fs', inr file) =>
      try_catch (update_handler e id b file) "Failed to update profile" fs'
  | (fs', inl err) => (fs', error_middleware err)
  end.

(** [app.delete('/api/profiles/:id', ...)] *)
Definition delete_profile (id : string) (fs : fsys) : fsys * response :=
  try_catch (delete_handler id) "Failed to delete profile" fs.

(** ** Sample data *)

(** A reading of calendar dates [YYYY-MM-DD] (the value of a date input)
    as milliseconds since the epoch, to instantiate [Date_parse]. *)
Definition digit (c : ascii) : option Z :=
  let n := nat_of_ascii c in
  if Nat.leb 48 n && Nat.leb n 57 then Some (Z.of_nat (n - 48)) else None.

Definition days_from_civil (y m d : Z) : Z :=
  let y' := (if m <=? 2 then y - 1 else y)%Z in
  let era := (y' / 400)%Z in
  let yoe := (y' - era * 400)%Z in
  let mp := ((m + 9) mod 12)%Z in
  let doy := ((153 * mp + 2) / 5 + d - 1)%Z in
  let doe := (yoe * 365 + yoe / 4 - yoe / 100 + doy)%Z in
  (era * 146097 + doe - 719468)%Z.

Definition iso_date (s : string) : option Z :=
  match s with
  | String y1 (String y2 (String y3 (String y4 (String "-"
      (String m1 (String m2 (String "-"
      (String d1 (String d2 EmptyString))))))))) =>
      a ← digit y1; b ← digit y2; c ← digit y3; d ← digit y4;
      m ← digit m1; m' ← digit m2; e ← digit d1; e' ← digit d2;
      let year := (1000 * a + 100 * b + 10 * c + d)%Z in
      let month := (10 * m + m')%Z in
      let day := (10 * e + e')%Z in
      if ((1 <=? month) && (month <=? 12) && (1 <=? day) && (day <=? 31))%Z
      then Some (days_from_civil year month day * 86400000)%Z
      else None
  | _ => None
  end.

Definition env0 : env :=
  {| uuid := "3f2a"; uniqueTag := "1700000000000-k3j9x0q1z";
     now1 := "2024-05-01T10:00:00.000Z"; now2 := "2024-05-01T10:00:00.001Z" |}.

Definition empty_store : fsys := {| profiles := Some ∅; temp := ∅ |}.

Definition jpeg : upload :=
  {| originalname := "Cat.JPG"; mimetype := "image/jpeg"; size := 2048;
     data := CRaw "JFIF" |}.

Definition png : upload :=
  {| originalname := "dog.png"; mimetype := "image/png"; size := 4096;
     data := CRaw "PNG" |}.

Definition bare_image : upload :=
  {| originalname := "snapshot"; mimetype := "image/png"; size := 4096;
     data := CRaw "PNG" |}.

Definition text_file : upload :=
  {| originalname := "notes.txt"; mimetype := "text/plain"; size := 12;
     data := CRaw "hello world" |}.

Definition form0 : form :=
  {| body_name := Some "A"; body_address := Some "X"; body_contact := None;
     body_date := Some "2024-01-01"; body_note := Some "hello" |}.

Definition form_blank_name : form :=
  {| body_name := Some " "; body_address := Some "X"; body_contact := None;
     body_date := Some "2024-01-01"; body_note := Some "hello" |}.

Definition form_no_name : form :=
  {| body_name := None; body_address := Some "X"; body_contact := None;
     body_date := Some "2024-01-01"; body_note := Some "hello" |}.

Definition form_blank_contact : form :=
  {| body_name := Some "A"; body_address := Some "X"; body_contact := Some " ";
     body_date := Some "2024-01-01"; body_note := Some "hello" |}.

Definition form_edit : form :=
  {| body_name := Some " B "; body_address := Some "Y"; body_contact := Some "";
     body_date := Some "2024-02-02"; body_note := Some "edited" |}.

Definition record_of (id date note photo : string) : gmap string jsval :=
  <["id" := JStr id]> (<["name" := JStr "A"]> (<["address" := JStr "X"]>
  (<["contact" := JNull]> (<["photo" := JStr photo]> (<["date" := JStr date]>
  (<["note" := JStr note]> (<["createdAt" := JStr "2024-01-01T00:00:00.000Z"]>
  (<["updatedAt" := JStr "2024-01-01T00:00:00.000Z"]> ∅)))))))).

Definition long_note : string :=
  "0123456789012345678901234567890123456789012345678901234567890".

Definition profile_dir (id date note : string) : node :=
  NDir (<["profile.json" := CJson (record_of id date note "photo.jpg")]>
       (<["photo.jpg" := CRaw "JFIF"]> ∅)).

(** Two complete profiles, a directory holding only a photo and a stray
    file. *)
Definition store2 : fsys :=
  {| profiles := Some (<["p1" := profile_dir "p1" "2024-01-01" "hello"]>
                      (<["p2" := profile_dir "p2" "2024-03-01" long_note]>
                      (<["p3" := NDir (<["photo.jpg" := CRaw "JFIF"]> ∅)]>
                      (<["README" := NFile (CRaw "text")]> ∅))));
     temp := ∅ |}.

(** A profile whose metadata record is there and whose photo is not. *)
Definition store_no_photo : fsys :=
  {| profiles :=
       Some (<["p1" := NDir (<["profile.json" :=
                CJson (record_of "p1" "2024-01-01" "hello" "photo.jpg")]> ∅)]> ∅);
     temp := ∅ |}.

(** A complete profile next to a directory whose metadata file is not
    JSON. *)
Definition store_corrupt : fsys :=
  {| profiles := Some (<["p1" := profile_dir "p1" "2024-01-01" "hello"]>
                      (<["p2" := NDir (<["profile.json" := CRaw "{oops"]> ∅)]> ∅));
     temp := ∅ |}.

(** ** Vocabulary of the statements *)

(** The metadata file of a profile directory. *)
Definition metadata (fs : fsys) (id : string) : option content :=
  file_of fs id "profile.json".

(** A metadata file that [GET /api/profiles] can turn into a summary. *)
Definition readable (c : content) : Prop :=
  ∃ r note, c = CJson r ∧ r !! "note" = Some (JStr note).

(** A form field that is absent or the empty string. *)
Definition missing (s : option string) : Prop := s = None ∨ s = Some "".

(** [s] is the summary of the record [r]: the note is cut to its first 50
    characters, with an ellipsis when something was cut. *)
Definition is_summary_of (r : gmap string jsval) (s : summary) : Prop :=
  ∃ note head,
    r !! "note" = Some (JStr note)
    ∧ String.prefix head note = true
    ∧ String.length head = Nat.min 50 (String.length note)
    ∧ sum_note s = head ++ (if Nat.ltb 50 (String.length note) then "..." else "")
    ∧ sum_id s = r !! "id"
    ∧ sum_name s = r !! "name"
    ∧ sum_date s = r !! "date"
    ∧ sum_photo s = "/images/" ++ to_str (r !! "id") ++ "/" ++ to_str (r !! "photo").

(** [a] is not older than [b], both dates being valid. *)
Definition not_older (Date_parse : string → option Z) (a b : summary) : Prop :=
  ∃ ta tb, time_value Date_parse (sum_date a) = Some ta
           ∧ time_value Date_parse (sum_date b) = Some tb
           ∧ (tb ≤ ta)%Z.

(** The names [fs.readdir(profilesDir)] lists. *)
Definition folders_of (fs : fsys) : list string :=
  match profiles fs with
  | Some m => (map_to_list m).*1
  | None => []
  end.

(** What one turn of the listing loop does with a folder: nothing, a
    summary, or an exception. *)
Definition read_summary (fs : fsys) (folder : string) : outcome (option summary) :=
  match metadata fs folder with
  | None => Ok None
  | Some (CRaw _) => Throw
  | Some (CJson r) =>
      match r !! "note" with
      | Some (JStr note) =>
          Ok (Some {| sum_id := r !! "id"; sum_name := r !! "name";
                      sum_date := r !! "date"; sum_photo := photoUrl r;
                      sum_note := short_note note |})
      | _ => Throw
      end
  end.

(** A form field that is absent or empty once trimmed. *)
Definition blank (s : option string) : Prop :=
  s = None ∨ ∃ x, s = Some x ∧ JS.trim x = "".

(** Every metadata file of the store can be turned into a summary. *)
Definition all_readable (fs : fsys) : bool :=
  forallb (λ f, match read_summary fs f with Throw => false | Ok _ => true end)
    (folders_of fs).

(** A form that fails the check of the required fields. *)
Definition some_missing (b : form) : Prop :=
  missing (body_name b) ∨ missing (body_address b)
  ∨ missing (body_date b) ∨ missing (body_note b).

(** A file part that multer stores: an image type, within the size
    limit. *)
Definition accepted (u : upload) : Prop :=
  fileFilter u = true ∧ (size u ≤ fileSize)%N.

(** The file system once multer has stored the upload. *)
Definition staged (e : env) (u : upload) (fs : fsys) : fsys :=
  {| profiles := profiles fs; temp := <[uniqueName e u := data u]> (temp fs) |}.

(** The normalised name of a stored photo. *)
Definition photo_name (u : upload) : string :=
  "photo" ++ JS.toLowerCase (Path.extname (originalname u)).

(** The entries of the profiles directory, none when it does not exist. *)
Definition entries (fs : fsys) : gmap string node := default ∅ (profiles fs).

(** The record an update leaves, before the photo is looked at. *)
Definition updated_record (e : env) (b : form) (r : gmap string jsval)
  : gmap string jsval :=
  set_prop "updatedAt" (Some (JStr (now1 e)))
  (set_prop "note" (Some (JStr (JS.trim (default "" (body_note b)))))
  (set_prop "date" (JStr <$> body_date b)
  (set_prop "contact" (Some (contact_value (body_contact b)))
  (set_prop "address" (Some (JStr (JS.trim (default "" (body_address b)))))
  (set_prop "name" (Some (JStr (JS.trim (default "" (body_name b))))) r))))).

(** The keys an update may write. *)
Definition update_keys : list string :=
  ["name"; "address"; "contact"; "date"; "note"; "updatedAt"; "photo"].

(** The summaries of the folders that have a metadata file. *)
Definition summaries_of (fs : fsys) (folders : list string) : list summary :=
  omap (λ f, match read_summary fs f with Ok o => o | Throw => None end) folders.

(** A comparator that is the difference of two keys, on the elements of
    a list: the case in which [sort] has a prescribed result. *)
Definition keyed {A : Type} (comparefn : A → A → option Z) (key : A → Z)
    (l : list A) : Prop :=
  ∀ a b, a ∈ l → b ∈ l → comparefn a b = Some (key b - key a)%Z.


(** A file system whose profiles directory does not exist. *)
Definition store_absent : fsys := {| profiles := None; temp := ∅ |}.

(** A form with empty values and no date, as an update may receive it. *)
Definition form_empty_name : form :=
  {| body_name := Some ""; body_address := Some "Y"; body_contact := None;
     body_date := None; body_note := Some "" |}.

(** ** Strings *)

Lemma substring0_prefix n s : String.prefix (JS.substring0 n s) s = true.
Proof.
  unfold JS.substring0. revert s.
  induction n as [|n IH]; intros [|c s]; simpl; try reflexivity.
  rewrite IH. destruct (ascii_dec c c); [reflexivity | congruence].
Qed.

Lemma substring0_length n s :
  String.length (JS.substring0 n s) = Nat.min n (String.length s).
Proof.
  unfold JS.substring0. revert s.
  induction n as [|n IH]; intros [|c s]; simpl; try reflexivity.
  by rewrite IH.
Qed.

Lemma photo_name_not_json ext : "photo" ++ ext ≠ "profile.json".
Proof. discriminate. Qed.

Lemma falsy_missing s : JS.falsy s = true ↔ missing s.
Proof.
  unfold missing. destruct s as [[|c s]|]; simpl; split; intros H;
    try done; try (by left); try (by right); destruct H; congruence.
Qed.

Lemma contact_value_missing c : missing c → contact_value c = JNull.
Proof. intros H. unfold contact_value. apply falsy_missing in H. by rewrite H. Qed.

(** ** The sort *)

Section SortFacts.
Context {A : Type} (comparefn : A → A → option Z) (key : A → Z).

Lemma insert_sorted_perm x l : insert_sorted comparefn x l ≡ₚ x :: l.
Proof.
  induction l as [|y l IH]; simpl; [done|].
  destruct (before comparefn x y); [done|].
  rewrite IH. apply perm_swap.
Qed.

Lemma foldl_insert_perm l acc :
  foldl (λ acc x, insert_sorted comparefn x acc) acc l ≡ₚ acc ++ l.
Proof.
  revert acc. induction l as [|x l IH]; intros acc; simpl.
  - by rewrite app_nil_r.
  - rewrite IH, insert_sorted_perm. simpl. apply Permutation_middle.
Qed.

Lemma sort_perm l : sort comparefn l ≡ₚ l.
Proof. unfold sort. by rewrite foldl_insert_perm. Qed.

Lemma keyed_incl l l' :
  (∀ a, a ∈ l' → a ∈ l) → keyed comparefn key l → keyed comparefn key l'.
Proof. intros Hin Hk a b Ha Hb. apply Hk; by apply Hin. Qed.

Lemma insert_sorted_desc x l :
  keyed comparefn key (x :: l) →
  StronglySorted (λ a b, (key b ≤ key a)%Z) l →
  StronglySorted (λ a b, (key b ≤ key a)%Z) (insert_sorted comparefn x l).
Proof.
  intros Hk Hs. induction Hs as [|y l Hs IH Hy]; simpl.
  - repeat constructor.
  - unfold before. rewrite (Hk x y) by (rewrite !elem_of_cons; tauto). simpl.
    destruct (Z.ltb_spec (key y - key x) 0) as [Hlt|Hge].
    + constructor; [by constructor|].
      constructor; [lia|].
      eapply Forall_impl; [exact Hy|]. simpl. intros; lia.
    + constructor.
      * apply IH. revert Hk. apply keyed_incl.
        intros a. rewrite !elem_of_cons. tauto.
      * rewrite insert_sorted_perm. constructor; [lia | exact Hy].
Qed.

Lemma sort_desc l :
  keyed comparefn key l → StronglySorted (λ a b, (key b ≤ key a)%Z) (sort comparefn l).
Proof.
  intros Hk. unfold sort.
  assert (Hgen : ∀ acc,
    keyed comparefn key (acc ++ l) →
    StronglySorted (λ a b, (key b ≤ key a)%Z) acc →
    StronglySorted (λ a b, (key b ≤ key a)%Z)
      (foldl (λ acc x, insert_sorted comparefn x acc) acc l)).
  { clear Hk. induction l as [|x l IH]; intros acc Hk Hs; simpl; [done|].
    apply IH.
    - revert Hk. apply keyed_incl. intros a.
      rewrite !elem_of_app, insert_sorted_perm, !elem_of_cons. tauto.
    - apply insert_sorted_desc; [|done].
      revert Hk. apply keyed_incl. intros a.
      rewrite !elem_of_app, !elem_of_cons. tauto. }
  apply Hgen; [done | constructor].
Qed.
End SortFacts.

(** ** The listing loop *)

Ltac io_unfold :=
  unfold mbind, io_bind, mret, io_ret, throw, get_fs, put_fs, pathExists in *.

Lemma scan_folders_cons folder rest acc fs :
  scan_folders (folder :: rest) acc fs =
  match read_summary fs folder with
  | Ok None => scan_folders rest acc fs
  | Ok (Some s) => scan_folders rest (acc ++ [s]) fs
  | Throw => (fs, Throw)
  end.
Proof.
  unfold read_summary, metadata. simpl. io_unfold. simpl.
  unfold getJsonPath, Fs.readFile. io_unfold. simpl.
  destruct (file_of fs folder "profile.json") as [[r|raw]|] eqn:Hm;
    simpl; rewrite ?Hm; simpl; try reflexivity.
  unfold summarize. io_unfold.
  destruct (r !! "note") as [[|note]|]; reflexivity.
Qed.

Lemma scan_folders_ok fs folders acc :
  Forall (λ f, read_summary fs f ≠ Throw) folders →
  scan_folders folders acc fs = (fs, Ok (acc ++ summaries_of fs folders)%list).
Proof.
  intros H. revert acc. induction H as [|f folders Hf _ IH]; intros acc.
  - simpl. io_unfold. by rewrite app_nil_r.
  - rewrite scan_folders_cons. unfold summaries_of. simpl.
    destruct (read_summary fs f) as [[s|]|]; [| |done].
    + rewrite IH. by rewrite <- app_assoc.
    + apply IH.
Qed.

Lemma scan_folders_throw fs folders acc :
  Exists (λ f, read_summary fs f = Throw) folders →
  scan_folders folders acc fs = (fs, Throw).
Proof.
  intros H. revert acc. induction folders as [|f folders IH]; intros acc.
  - inversion H.
  - rewrite scan_folders_cons.
    destruct (read_summary fs f) as [[s|]|] eqn:Hf; [| |done];
      apply IH; inversion H; subst; congruence.
Qed.

Lemma read_summary_throw fs f :
  read_summary fs f = Throw ↔ ∃ c, metadata fs f = Some c ∧ ¬ readable c.
Proof.
  unfold read_summary, readable. split.
  - destruct (metadata fs f) as [[r|raw]|]; [| |done].
    + destruct (r !! "note") as [[|note]|] eqn:Hn; [|done|]; intros _;
        (eexists; split; [done|]); intros (r' & n & [= <-] & ?); congruence.
    + intros _. eexists; split; [done|]. intros (r' & n & ? & ?); congruence.
  - intros (c & -> & Hc). destruct c as [r|raw]; [|done].
    destruct (r !! "note") as [[|note]|] eqn:Hn; [done| |done].
    exfalso. apply Hc. eauto.
Qed.

Lemma read_summary_some fs f s :
  read_summary fs f = Ok (Some s) →
  ∃ r, metadata fs f = Some (CJson r) ∧ is_summary_of r s.
Proof.
  unfold read_summary.
  destruct (metadata fs f) as [[r|raw]|]; [| done | done].
  destruct (r !! "note") as [[|note]|] eqn:Hn; [done | | done].
  intros [= <-]. exists r. split; [done|].
  exists note, (JS.substring0 50 note). simpl.
  split_and!; try done.
  - apply substring0_prefix.
  - apply substring0_length.
Qed.

Lemma read_summary_record fs f r :
  metadata fs f = Some (CJson r) → readable (CJson r) →
  ∃ s, read_summary fs f = Ok (Some s) ∧ is_summary_of r s.
Proof.
  intros Hm (r' & note & [= <-] & Hn).
  assert (read_summary fs f = Ok (Some
    {| sum_id := r !! "id"; sum_name := r !! "name"; sum_date := r !! "date";
       sum_photo := photoUrl r; sum_note := short_note note |})) as Hs.
  { unfold read_summary. by rewrite Hm, Hn. }
  eexists. split; [exact Hs|].
  apply read_summary_some in Hs as (r' & Hr' & Hsum).
  rewrite Hm in Hr'. by injection Hr' as <-.
Qed.

Lemma metadata_in_folders fs f c : metadata fs f = Some c → f ∈ folders_of fs.
Proof.
  unfold metadata, file_of, dir_of, folders_of.
  destruct (profiles fs) as [m|]; [|done].
  destruct (m !! f) as [n|] eqn:Hf; [|done]. intros _.
  apply list_elem_of_fmap. exists (f, n). split; [done|].
  by apply elem_of_map_to_list.
Qed.

Lemma folders_of_NoDup fs : NoDup (folders_of fs).
Proof.
  unfold folders_of. destruct (profiles fs); [|constructor].
  apply NoDup_fst_map_to_list.
Qed.

(** The outcome of the whole handler. *)
Lemma list_handler_ok Date_parse fs :
  Forall (λ f, read_summary fs f ≠ Throw) (folders_of fs) →
  get_profiles Date_parse fs =
  (fs, json (BProfiles (sort (by_date Date_parse) (summaries_of fs (folders_of fs))))).
Proof.
  intros H. unfold get_profiles, try_catch, list_handler. io_unfold. simpl.
  unfold folders_of in *. destruct (profiles fs) as [m|] eqn:Hp; simpl.
  - unfold Fs.readdir, profilesDir. io_unfold. simpl. rewrite Hp.
    by rewrite (scan_folders_ok _ _ [] H).
  - reflexivity.
Qed.

Lemma list_handler_throw Date_parse fs :
  Exists (λ f, read_summary fs f = Throw) (folders_of fs) →
  get_profiles Date_parse fs = (fs, failure 500 "Failed to fetch profiles").
Proof.
  intros H. unfold get_profiles, try_catch, list_handler. io_unfold. simpl.
  unfold folders_of in *. destruct (profiles fs) as [m|] eqn:Hp; simpl.
  - unfold Fs.readdir, profilesDir. io_unfold. simpl. rewrite Hp.
    by rewrite (scan_folders_throw _ _ [] H).
  - inversion H.
Qed.

Lemma all_readable_folders fs :
  (∀ id c, metadata fs id = Some c → readable c) →
  Forall (λ f, read_summary fs f ≠ Throw) (folders_of fs).
Proof.
  intros H. apply Forall_forall. intros f _ Hf.
  apply read_summary_throw in Hf as (c & Hc & Hn). eauto.
Qed.

Lemma elem_of_summaries_of fs folders s :
  s ∈ summaries_of fs folders ↔
  ∃ f, f ∈ folders ∧ read_summary fs f = Ok (Some s).
Proof.
  unfold summaries_of. rewrite list_elem_of_omap. split.
  - intros (f & Hf & Hs). exists f. split; [done|].
    destruct (read_summary fs f) as [o|]; [by subst | done].
  - intros (f & Hf & Hs). exists f. split; [done|]. by rewrite Hs.
Qed.

Lemma Forall2_perm_r {A B} (R : A → B → Prop) l1 l2 l2' :
  Forall2 R l1 l2 → l2 ≡ₚ l2' → ∃ l1', l1 ≡ₚ l1' ∧ Forall2 R l1' l2'.
Proof.
  intros HF HP. revert l1 HF.
  induction HP as [|y l2 l2' _ IH|y z l2|l2 l2' l2'' _ IH1 _ IH2]; intros l1 HF.
  - exists l1. by split.
  - inversion HF as [|x ? l1t ? Hx Ht]; subst.
    destruct (IH _ Ht) as (l1' & Hp & Hf).
    exists (x :: l1'). split; [by constructor | by constructor].
  - inversion HF as [|x ? l1t ? Hx Ht]; subst.
    inversion Ht as [|x' ? l1t' ? Hx' Ht']; subst.
    exists (x' :: x :: l1t'). split; [apply perm_swap | by repeat constructor].
  - destruct (IH1 _ HF) as (l1' & Hp & Hf).
    destruct (IH2 _ Hf) as (l1'' & Hp' & Hf').
    exists l1''. split; [by etrans | done].
Qed.

Lemma StronglySorted_impl_elem {A} (R1 R2 : A → A → Prop) l :
  (∀ a b, a ∈ l → b ∈ l → R1 a b → R2 a b) →
  StronglySorted R1 l → StronglySorted R2 l.
Proof.
  intros Himp Hs. induction Hs as [|x l Hs IH Hx].
  - constructor.
  - constructor.
    + apply IH. intros a b Ha Hb. apply Himp; by apply list_elem_of_further.
    + apply Forall_forall. intros b Hb. apply Himp.
      * apply list_elem_of_here.
      * by apply list_elem_of_further.
      * rewrite Forall_forall in Hx. by apply Hx.
Qed.

Lemma NoDup_omap_keyed {A B} (g : A → option (A * B)) (l : list A) :
  (∀ x e, g x = Some e → e.1 = x) → NoDup l → NoDup (omap g l).*1.
Proof.
  intros Hg. induction 1 as [|x l Hx _ IH]; simpl; [constructor|].
  destruct (g x) as [e|] eqn:He; [|done]. simpl.
  constructor; [|done].
  rewrite list_elem_of_fmap. intros (e' & Heq & Hin).
  apply list_elem_of_omap in Hin as (x' & Hx' & He').
  apply Hg in He, He'. apply Hx. congruence.
Qed.

(** The folders with a metadata record, paired with it. *)
Lemma summaries_of_entries fs folders :
  Forall (λ f, read_summary fs f ≠ Throw) folders →
  Forall2 (λ (e : string * gmap string jsval) s, is_summary_of e.2 s)
    (omap (λ f, match metadata fs f with
                | Some (CJson r) => Some (f, r)
                | _ => None
                end) folders)
    (summaries_of fs folders).
Proof.
  unfold summaries_of.
  induction 1 as [|f folders Hf _ IH]; simpl; [constructor|].
  destruct (read_summary fs f) as [[s|]|] eqn:Hs; [| |done].
  - apply read_summary_some in Hs as (r & Hr & Hsum). rewrite Hr.
    by constructor.
  - unfold read_summary in Hs.
    destruct (metadata fs f) as [[r|raw]|]; [|done|done].
    by destruct (r !! "note") as [[|note]|].
Qed.

Lemma sorted_listing Date_parse (l : list summary) :
  (∀ s, s ∈ l → is_Some (time_value Date_parse (sum_date s))) →
  StronglySorted (not_older Date_parse) (sort (by_date Date_parse) l).
Proof.
  intros Hv.
  set (key := λ s, default 0%Z (time_value Date_parse (sum_date s))).
  apply (StronglySorted_impl_elem (λ a b, (key b ≤ key a)%Z)).
  - intros a b Ha Hb Hab. rewrite sort_perm in Ha, Hb.
    destruct (Hv a Ha) as [ta Hta], (Hv b Hb) as [tb Htb].
    exists ta, tb. subst key. simpl in Hab. rewrite Hta, Htb in Hab. done.
  - apply sort_desc. intros a b Ha Hb. unfold by_date. subst key. simpl.
    destruct (Hv a Ha) as [ta ->], (Hv b Hb) as [tb ->]. reflexivity.
Qed.

(** C2, amended: when every metadata file present holds a record with a
    text note, the listing answers with exactly one summary per directory
    that has a metadata record; the note of a summary is the first 50
    characters of the record's note, followed by an ellipsis exactly when
    the note is longer than 50 characters; and when every record's date is
    a valid date the summaries come newest first. *)
Theorem list_returns_summaries Date_parse fs :
  (∀ id c, metadata fs id = Some c → readable c) →
  ∃ entries l,
    get_profiles Date_parse fs = (fs, json (BProfiles l))
    ∧ NoDup entries.*1
    ∧ (∀ id r, (id, r) ∈ entries ↔ metadata fs id = Some (CJson r))
    ∧ Forall2 (λ e s, is_summary_of e.2 s) entries l
    ∧ ((∀ id r, metadata fs id = Some (CJson r) →
               is_Some (time_value Date_parse (r !! "date"))) →
       StronglySorted (not_older Date_parse) l).
Proof.
  intros Hall. pose proof (all_readable_folders fs Hall) as Hok.
  pose proof (summaries_of_entries fs _ Hok) as HF.
  destruct (Forall2_perm_r _ _ _
              (sort (by_date Date_parse) (summaries_of fs (folders_of fs)))
              HF) as (entries & Hperm & HF').
  { symmetry. apply sort_perm. }
  exists entries, (sort (by_date Date_parse) (summaries_of fs (folders_of fs))).
  assert (Hmem : ∀ id r, (id, r) ∈ entries ↔ metadata fs id = Some (CJson r)).
  { intros id r. rewrite <- Hperm, list_elem_of_omap. split.
    - intros (f & _ & Hf).
      destruct (metadata fs f) as [[r'|raw]|] eqn:Hm; [|done|done]. congruence.
    - intros Hm. exists id. split; [by eapply metadata_in_folders|].
      by rewrite Hm. }
  split_and!; [by apply list_handler_ok | | done | done |].
  - rewrite <- Hperm. apply NoDup_omap_keyed; [|apply folders_of_NoDup].
    intros f e. destruct (metadata fs f) as [[r'|raw]|]; [|done|done].
    by intros [= <-].
  - intros Hdates. apply sorted_listing. intros s Hs.
    apply elem_of_summaries_of in Hs as (f & _ & Hs).
    apply read_summary_some in Hs as (r & Hr & Hsum).
    destruct Hsum as (note & head & _ & _ & _ & _ & _ & _ & Hd & _).
    rewrite Hd. by eapply Hdates.
Qed.

Lemma folders_dichotomy fs folders :
  Forall (λ f, read_summary fs f ≠ Throw) folders
  ∨ Exists (λ f, read_summary fs f = Throw) folders.
Proof.
  induction folders as [|f folders [IH|IH]].
  - left. constructor.
  - destruct (read_summary fs f) as [o|] eqn:Hf.
    + left. constructor; [congruence | done].
    + right. by constructor.
  - right. by constructor.
Qed.

Lemma list_success_inv Date_parse fs l :
  get_profiles Date_parse fs = (fs, json (BProfiles l)) →
  Forall (λ f, read_summary fs f ≠ Throw) (folders_of fs)
  ∧ l = sort (by_date Date_parse) (summaries_of fs (folders_of fs)).
Proof.
  intros H. destruct (folders_dichotomy fs (folders_of fs)) as [Hok|Hbad].
  - split; [done|]. rewrite (list_handler_ok _ _ Hok) in H.
    unfold json in H. by injection H as <-.
  - rewrite (list_handler_throw _ _ Hbad) in H. discriminate.
Qed.

Lemma omap_length_filter fs folders :
  Forall (λ f, read_summary fs f ≠ Throw) folders →
  length (summaries_of fs folders)
  = length (filter (λ f, is_Some (metadata fs f)) folders).
Proof.
  unfold summaries_of. induction 1 as [|f folders Hf _ IH]; simpl; [done|].
  destruct (read_summary fs f) as [[s|]|] eqn:Hs; [| |done].
  - apply read_summary_some in Hs as (r & Hr & _).
    rewrite filter_cons_True by (rewrite Hr; eauto). simpl. f_equal. exact IH.
  - rewrite filter_cons_False; [exact IH|].
    unfold read_summary in Hs. intros [c Hc]. rewrite Hc in Hs.
    destruct c as [r|raw]; [|done]. by destruct (r !! "note") as [[|note]|].
Qed.

(** C7, amended: the listing skips every entry of the profiles directory
    that has no metadata file: when each metadata file that is present
    can be read the listing succeeds, with as many summaries as there are
    entries with a metadata file, each the summary of a stored record.  A
    metadata file that is present and cannot be read is not skipped: the
    whole listing fails with the generic 500 answer. *)
Theorem list_skips_absent_metadata Date_parse fs :
  ((∀ id c, metadata fs id = Some c → readable c) →
   ∃ l, get_profiles Date_parse fs = (fs, json (BProfiles l))
        ∧ length l = length (filter (λ f, is_Some (metadata fs f)) (folders_of fs))
        ∧ ∀ s, s ∈ l → ∃ id r, metadata fs id = Some (CJson r) ∧ is_summary_of r s)
  ∧ (∀ id c, metadata fs id = Some c → ¬ readable c →
     get_profiles Date_parse fs = (fs, failure 500 "Failed to fetch profiles")).
Proof.
  split.
  - intros Hall. pose proof (all_readable_folders fs Hall) as Hok.
    eexists. split; [by apply list_handler_ok|]. split.
    + rewrite sort_perm. by apply omap_length_filter.
    + intros s Hs. rewrite sort_perm in Hs.
      apply elem_of_summaries_of in Hs as (f & _ & Hs).
      apply read_summary_some in Hs as (r & Hr & Hsum). eauto.
  - intros id c Hm Hc. apply list_handler_throw.
    apply Exists_exists. exists id. split.
    + by eapply metadata_in_folders.
    + apply read_summary_throw. eauto.
Qed.

Lemma get_profile_absent fs id :
  metadata fs id = None →
  get_profile id fs = (fs, failure 404 "Profile not found").
Proof.
  unfold metadata. intros H.
  unfold get_profile, try_catch, get_handler, getJsonPath. io_unfold. simpl.
  by rewrite H.
Qed.

Lemma get_profile_record fs id r :
  metadata fs id = Some (CJson r) →
  get_profile id fs
  = (fs, json (BProfile (<["photoUrl" := JStr (photoUrl r)]> r))).
Proof.
  unfold metadata. intros H.
  unfold get_profile, try_catch, get_handler, getJsonPath, Fs.readFile.
  io_unfold. simpl. rewrite H. simpl. by rewrite H.
Qed.

(** C1, amended: what a read exposes follows the metadata record alone.
    An id without a metadata record, with or without a photo file, is not
    found by Get, and every summary of a listing comes from a metadata
    record; an id with a metadata record is returned by Get and
    summarised by the listing whether or not its photo file exists. *)
Theorem reads_follow_metadata Date_parse fs id :
  (metadata fs id = None →
   get_profile id fs = (fs, failure 404 "Profile not found"))
  ∧ (∀ r, metadata fs id = Some (CJson r) →
     get_profile id fs
     = (fs, json (BProfile (<["photoUrl" := JStr (photoUrl r)]> r))))
  ∧ (∀ l, get_profiles Date_parse fs = (fs, json (BProfiles l)) →
     (∀ s, s ∈ l → ∃ id' r, metadata fs id' = Some (CJson r) ∧ is_summary_of r s)
     ∧ (∀ r, metadata fs id = Some (CJson r) → ∃ s, s ∈ l ∧ is_summary_of r s)).
Proof.
  split; [apply get_profile_absent|]. split; [apply get_profile_record|].
  intros l Hl. apply list_success_inv in Hl as [Hok ->]. split.
  - intros s Hs. rewrite sort_perm in Hs.
    apply elem_of_summaries_of in Hs as (f & _ & Hs).
    apply read_summary_some in Hs as (r & Hr & Hsum). eauto.
  - intros r Hr.
    assert (Hin : id ∈ folders_of fs) by by eapply metadata_in_folders.
    rewrite Forall_forall in Hok. specialize (Hok id Hin).
    unfold read_summary in Hok. rewrite Hr in Hok.
    destruct (r !! "note") as [[|note]|] eqn:Hn; [done| |done].
    destruct (read_summary_record fs id r Hr) as (s & Hs & Hsum).
    { by exists r, note. }
    exists s. split; [|done]. rewrite sort_perm.
    apply elem_of_summaries_of. eauto.
Qed.

(** ** File system steps *)

#[local] Arguments JS.trim : simpl never.
#[local] Arguments JS.toLowerCase : simpl never.
#[local] Arguments Path.extname : simpl never.
#[local] Arguments String.append : simpl never.
#[local] Arguments JS.falsy : simpl never.
#[local] Arguments Fs.mkdir : simpl never.
#[local] Arguments Fs.rename : simpl never.
#[local] Arguments Fs.writeFile : simpl never.
#[local] Arguments Fs.readFile : simpl never.
#[local] Arguments Fs.unlink : simpl never.

Lemma bind_eq {A B} (m : io A) (k : A → io B) fs :
  (m ≫= k) fs
  = match m fs with
    | (fs', Ok a) => k a fs'
    | (fs', Throw) => (fs', Throw)
    end.
Proof. reflexivity. Qed.

Lemma dir_of_entries fs id :
  dir_of fs id = match entries fs !! id with Some (NDir d) => Some d | _ => None end.
Proof. unfold dir_of, entries. by destruct (profiles fs). Qed.

Lemma entries_set_dir fs id d : entries (set_dir fs id d) = <[id := NDir d]> (entries fs).
Proof. reflexivity. Qed.

Lemma dir_of_set_dir fs id d : dir_of (set_dir fs id d) id = Some d.
Proof. by rewrite dir_of_entries, entries_set_dir, lookup_insert_eq. Qed.

Lemma mkdir_profile fs id :
  Fs.mkdir (PProfile id) fs
  = match entries fs !! id with
    | None => (set_dir fs id ∅, Ok tt)
    | Some (NDir _) => (fs, Ok tt)
    | Some (NFile _) => (fs, Throw)
    end.
Proof.
  unfold Fs.mkdir, entries. io_unfold.
  by destruct (default ∅ (profiles fs) !! id) as [[c|d]|].
Qed.

Lemma rename_upload fs t id name :
  Fs.rename (PTemp t) (PEntry id name) fs
  = match temp fs !! t, dir_of fs id with
    | Some c, Some d =>
        ({| profiles := profiles (set_dir fs id (<[name := c]> d));
            temp := delete t (temp fs) |}, Ok tt)
    | _, _ => (fs, Throw)
    end.
Proof.
  unfold Fs.rename. io_unfold.
  destruct (temp fs !! t); [|done]. by destruct (dir_of fs id).
Qed.

Lemma writeFile_entry fs id name c :
  Fs.writeFile (PEntry id name) c fs
  = match dir_of fs id with
    | Some d => (set_dir fs id (<[name := c]> d), Ok tt)
    | None => (fs, Throw)
    end.
Proof. unfold Fs.writeFile. io_unfold. by destruct (dir_of fs id). Qed.

Lemma readFile_entry fs id name :
  Fs.readFile (PEntry id name) fs
  = match file_of fs id name with
    | Some c => (fs, Ok c)
    | None => (fs, Throw)
    end.
Proof. unfold Fs.readFile. io_unfold. by destruct (file_of fs id name). Qed.

Lemma unlink_entry fs id name :
  Fs.unlink (PEntry id name) fs
  = match dir_of fs id with
    | Some d =>
        match d !! name with
        | Some _ => (set_dir fs id (delete name d), Ok tt)
        | None => (fs, Throw)
        end
    | None => (fs, Throw)
    end.
Proof.
  unfold Fs.unlink. io_unfold.
  destruct (dir_of fs id) as [d|]; [|done]. by destruct (d !! name).
Qed.

Lemma falsy_false s : JS.falsy s = false ↔ ∃ x, s = Some x ∧ x ≠ "".
Proof.
  destruct s as [[|c s]|]; unfold JS.falsy; split; try done.
  - intros (x & [= <-] & ?). done.
  - intros _. eexists. split; [done|]. discriminate.
  - intros (x & ? & ?). done.
Qed.

(** ** The upload middleware *)

Lemma upload_accepted e u fs :
  accepted u →
  upload_single e (Some u) fs
  = (staged e u fs,
     inr (Some {| file_originalname := originalname u;
                  file_path := uniqueName e u |})).
Proof.
  intros [Hff Hsz]. unfold upload_single. rewrite Hff. simpl.
  apply N.leb_le in Hsz. rewrite N.leb_antisym in Hsz.
  apply negb_true_iff in Hsz. by rewrite Hsz.
Qed.

Lemma upload_refused e u fs :
  fileFilter u = false → upload_single e (Some u) fs = (fs, inl FilterError).
Proof. intros H. unfold upload_single. by rewrite H. Qed.

Lemma upload_too_large e u fs :
  fileFilter u = true → ¬ (size u ≤ fileSize)%N →
  upload_single e (Some u) fs
  = ({| profiles := profiles fs; temp := delete (uniqueName e u) (temp fs) |},
     inl LimitFileSize).
Proof.
  intros Hff Hsz. unfold upload_single. rewrite Hff. simpl.
  destruct (N.ltb_spec fileSize (size u)); [done | lia].
Qed.

(** Every file part is refused, found too large, or stored. *)
Lemma upload_cases u :
  fileFilter u = false
  ∨ (fileFilter u = true ∧ ¬ (size u ≤ fileSize)%N)
  ∨ accepted u.
Proof.
  unfold accepted. destruct (fileFilter u); [|by left]. right.
  destruct (decide (size u ≤ fileSize)%N); [by right | by left].
Qed.

(** ** Create *)

Lemma validation_true b (file : option stored_file) :
  some_missing b ∨ file = None ↔
  JS.falsy (body_name b) || JS.falsy (body_address b)
  || JS.falsy (body_date b) || JS.falsy (body_note b)
  || negb (bool_decide (is_Some file)) = true.
Proof.
  unfold some_missing. rewrite !orb_true_iff, !falsy_missing, negb_true_iff.
  rewrite bool_decide_eq_false. rewrite <- eq_None_not_Some. tauto.
Qed.

Lemma create_handler_invalid e b file fs :
  some_missing b ∨ file = None →
  create_handler e b file fs = (fs, Ok (failure 400 "All fields are required")).
Proof.
  intros H. apply validation_true in H. unfold create_handler. by rewrite H.
Qed.

Lemma create_no_file e b fs :
  post_profiles e b None fs = (fs, failure 400 "All fields are required").
Proof.
  unfold post_profiles, upload_single, try_catch.
  rewrite create_handler_invalid by by right. done.
Qed.

Lemma create_refused e b u fs :
  fileFilter u = false →
  post_profiles e b (Some u) fs = (fs, failure 500 "Internal server error").
Proof. intros H. unfold post_profiles. by rewrite upload_refused. Qed.

Lemma create_too_large e b u fs :
  fileFilter u = true → ¬ (size u ≤ fileSize)%N →
  post_profiles e b (Some u) fs
  = ({| profiles := profiles fs; temp := delete (uniqueName e u) (temp fs) |},
     failure 400 "File too large. Max 5MB").
Proof. intros H1 H2. unfold post_profiles. by rewrite upload_too_large. Qed.

Lemma create_invalid e b u fs :
  accepted u → some_missing b →
  post_profiles e b (Some u) fs
  = (staged e u fs, failure 400 "All fields are required").
Proof.
  intros Hacc Hmiss. unfold post_profiles, try_catch.
  rewrite upload_accepted by done.
  rewrite create_handler_invalid by by left. done.
Qed.

(** The outcome of a request that passes the upload middleware and the
    validation: an exception when the fresh id names a plain file, and
    otherwise a profile directory holding the photo and the record. *)
Lemma create_valid e b u fs :
  accepted u → ¬ some_missing b →
  match entries fs !! uuid e with
  | Some (NFile _) =>
      post_profiles e b (Some u) fs
      = (staged e u fs, failure 500 "Failed to create profile")
  | _ =>
      ∃ fs' r,
        post_profiles e b (Some u) fs
        = (fs', json (BSuccess (uuid e) (link_of (uuid e))
                        "Profile created successfully"))
        ∧ dir_of fs' (uuid e)
          = Some (<["profile.json" := CJson r]>
                  (<[photo_name u := data u]> (default ∅ (dir_of fs (uuid e)))))
        ∧ temp fs' = delete (uniqueName e u) (<[uniqueName e u := data u]> (temp fs))
        ∧ (∀ id, id ≠ uuid e → entries fs' !! id = entries fs !! id)
        ∧ r !! "id" = Some (JStr (uuid e))
        ∧ r !! "name" = Some (JStr (JS.trim (default "" (body_name b))))
        ∧ r !! "address" = Some (JStr (JS.trim (default "" (body_address b))))
        ∧ r !! "contact" = Some (contact_value (body_contact b))
        ∧ r !! "photo" = Some (JStr (photo_name u))
        ∧ r !! "date" = JStr <$> body_date b
        ∧ r !! "note" = Some (JStr (JS.trim (default "" (body_note b))))
        ∧ r !! "createdAt" = Some (JStr (now1 e))
        ∧ r !! "updatedAt" = Some (JStr (now2 e))
  end.
Proof.
  intros Hacc Hvalid.
  assert (Hcond : JS.falsy (body_name b) || JS.falsy (body_address b)
    || JS.falsy (body_date b) || JS.falsy (body_note b)
    || negb (bool_decide (is_Some (Some
         {| file_originalname := originalname u;
            file_path := uniqueName e u |}))) = false).
  { apply not_true_is_false. rewrite <- validation_true.
    intros [H|H]; [done | discriminate]. }
  assert (∃ n a d o, body_name b = Some n ∧ body_address b = Some a
                     ∧ body_date b = Some d ∧ body_note b = Some o)
    as (n & a & d & o & Hn & Ha & Hd & Ho).
  { unfold some_missing, missing in Hvalid.
    destruct (body_name b), (body_address b), (body_date b), (body_note b);
      try (exfalso; apply Hvalid; tauto). eauto 10. }
  unfold post_profiles, try_catch. rewrite upload_accepted by done.
  unfold create_handler. rewrite Hcond.
  unfold getProfilePath, getPhotoPath, getJsonPath.
  rewrite bind_eq, mkdir_profile.
  change (entries (staged e u fs)) with (entries fs).
  destruct (entries fs !! uuid e) as [[c|d0]|] eqn:Hid; [done| |].
  - (* the directory exists already *)
    rewrite bind_eq. unfold req_file at 1. io_unfold. simpl.
    rewrite rename_upload. simpl. rewrite lookup_insert_eq.
    rewrite (dir_of_entries _ (uuid e)).
    change (entries (staged e u fs)) with (entries fs). rewrite Hid.
    rewrite Hn, Ha, Ho. simpl. rewrite writeFile_entry.
    rewrite (dir_of_entries _ (uuid e)). simpl.
    unfold entries at 1. simpl. rewrite lookup_insert_eq.
    eexists _, _. split; [reflexivity|].
    rewrite dir_of_set_dir. rewrite (dir_of_entries fs), Hid. simpl.
    split; [done|]. split; [done|]. split.
    { intros id Hne. rewrite entries_set_dir. unfold entries at 1. simpl.
      rewrite !lookup_insert_ne by done. done. }
    rewrite Hd. unfold set_prop. simpl. by simplify_map_eq.
  - (* the directory is created *)
    rewrite bind_eq. unfold req_file at 1. io_unfold. simpl.
    rewrite rename_upload. simpl. rewrite lookup_insert_eq.
    rewrite (dir_of_entries _ (uuid e)). unfold entries at 1. simpl.
    rewrite lookup_insert_eq.
    rewrite Hn, Ha, Ho. simpl. rewrite writeFile_entry.
    rewrite (dir_of_entries _ (uuid e)). simpl.
    unfold entries at 1. simpl. rewrite lookup_insert_eq.
    eexists _, _. split; [reflexivity|].
    rewrite dir_of_set_dir. rewrite (dir_of_entries fs), Hid. simpl.
    split; [done|]. split; [done|]. split.
    { intros id Hne. rewrite entries_set_dir. unfold entries at 1. simpl.
      rewrite !lookup_insert_ne by done. done. }
    rewrite Hd. unfold set_prop. simpl. by simplify_map_eq.
Qed.

Lemma some_missing_dec b : some_missing b ∨ ¬ some_missing b.
Proof.
  unfold some_missing.
  destruct (JS.falsy (body_name b)) eqn:H1; [left; left; by apply falsy_missing|].
  destruct (JS.falsy (body_address b)) eqn:H2;
    [left; right; left; by apply falsy_missing|].
  destruct (JS.falsy (body_date b)) eqn:H3;
    [left; right; right; left; by apply falsy_missing|].
  destruct (JS.falsy (body_note b)) eqn:H4;
    [left; right; right; right; by apply falsy_missing|].
  right. rewrite <- !falsy_missing. rewrite H1, H2, H3, H4.
  intros [|[|[|]]]; discriminate.
Qed.

(** Every successful create comes from a stored image and a complete
    form, and leaves the photo and the record in the new directory. *)
Lemma create_success e b f fs fs' resp :
  post_profiles e b f fs = (fs', resp) → status resp = 200 →
  ∃ u r,
    f = Some u ∧ accepted u ∧ ¬ some_missing b
    ∧ resp = json (BSuccess (uuid e) (link_of (uuid e))
                     "Profile created successfully")
    ∧ dir_of fs' (uuid e)
      = Some (<["profile.json" := CJson r]>
              (<[photo_name u := data u]> (default ∅ (dir_of fs (uuid e)))))
    ∧ r !! "photo" = Some (JStr (photo_name u))
    ∧ r !! "contact" = Some (contact_value (body_contact b)).
Proof.
  intros Hpost Hst. destruct f as [u|].
  - destruct (upload_cases u) as [Hr|[[Hf Hl]|Hacc]].
    + rewrite create_refused in Hpost by done.
      injection Hpost as <- <-. discriminate.
    + rewrite create_too_large in Hpost by done.
      injection Hpost as <- <-. discriminate.
    + destruct (some_missing_dec b) as [Hm|Hv].
      * rewrite create_invalid in Hpost by done.
        injection Hpost as <- <-. discriminate.
      * pose proof (create_valid e b u fs Hacc Hv) as Hc.
        destruct (entries fs !! uuid e) as [[c|d0]|] eqn:Hid.
        -- rewrite Hc in Hpost. injection Hpost as <- <-. discriminate.
        -- destruct Hc as (fs1 & r & Hc & Hdir & _ & _ & _ & _ & _ & Hco & Hph & _).
           rewrite Hc in Hpost. injection Hpost as <- <-.
           exists u, r. by split_and!.
        -- destruct Hc as (fs1 & r & Hc & Hdir & _ & _ & _ & _ & _ & Hco & Hph & _).
           rewrite Hc in Hpost. injection Hpost as <- <-.
           exists u, r. by split_and!.
  - rewrite create_no_file in Hpost. injection Hpost as <- <-. discriminate.
Qed.

(** C3, amended: a create request in which one of [name], [address],
    [date], [note] is absent or the empty string, or which carries no
    file, and whose file part, if any, declares an image type, is answered
    with status 400 and leaves the profiles directory as it was. *)
Theorem create_rejects_missing_fields e b f fs :
  some_missing b ∨ f = None →
  (∀ u, f = Some u → fileFilter u = true) →
  status (post_profiles e b f fs).2 = 400
  ∧ profiles (post_profiles e b f fs).1 = profiles fs.
Proof.
  intros Hbad Himg. destruct f as [u|].
  - destruct Hbad as [Hm|Hn]; [|discriminate].
    destruct (upload_cases u) as [Hr|[[Hf Hl]|Hacc]].
    + rewrite Himg in Hr by done. discriminate.
    + by rewrite create_too_large.
    + by rewrite create_invalid.
  - by rewrite create_no_file.
Qed.

(** C4, amended: a create request that fails the check of the required
    fields is answered with the validation error and leaves the profiles
    directory as it was; without a file part the whole file system is as
    before, and with a file part that multer stored the staging directory
    has gained that upload, which stays there. *)
Theorem create_validation_leaves_store e b f fs :
  some_missing b ∨ f = None →
  (∀ u, f = Some u → accepted u) →
  (post_profiles e b f fs).2 = failure 400 "All fields are required"
  ∧ profiles (post_profiles e b f fs).1 = profiles fs
  ∧ temp (post_profiles e b f fs).1
    = match f with
      | Some u => <[uniqueName e u := data u]> (temp fs)
      | None => temp fs
      end.
Proof.
  intros Hbad Hacc. destruct f as [u|].
  - destruct Hbad as [Hm|Hn]; [|discriminate].
    by rewrite create_invalid by auto.
  - by rewrite create_no_file.
Qed.

(** ** Update *)

Lemma metadata_dir fs id c :
  metadata fs id = Some c ↔ ∃ d, dir_of fs id = Some d ∧ d !! "profile.json" = Some c.
Proof.
  unfold metadata, file_of. destruct (dir_of fs id) as [d|]; split.
  - eauto.
  - by intros (d' & [= <-] & ?).
  - done.
  - by intros (d' & ? & ?).
Qed.

Lemma updated_record_other e b r k :
  k ∉ ["name"; "address"; "contact"; "date"; "note"; "updatedAt"] →
  updated_record e b r !! k = r !! k.
Proof.
  intros Hk. rewrite !not_elem_of_cons in Hk.
  destruct Hk as (? & ? & ? & ? & ? & ? & _).
  unfold updated_record, set_prop. destruct (body_date b); simpl.
  all: repeat first [ rewrite lookup_insert_ne by congruence
                    | rewrite lookup_delete_ne by congruence ]; done.
Qed.

Lemma updated_record_fields e b r :
  updated_record e b r !! "updatedAt" = Some (JStr (now1 e))
  ∧ updated_record e b r !! "contact" = Some (contact_value (body_contact b))
  ∧ updated_record e b r !! "name"
    = Some (JStr (JS.trim (default "" (body_name b))))
  ∧ updated_record e b r !! "address"
    = Some (JStr (JS.trim (default "" (body_address b))))
  ∧ updated_record e b r !! "note"
    = Some (JStr (JS.trim (default "" (body_note b))))
  ∧ updated_record e b r !! "date" = JStr <$> body_date b.
Proof.
  unfold updated_record, set_prop. destruct (body_date b); simpl;
    by simplify_map_eq.
Qed.

(** The handler up to the photo: not found, an exception on a metadata
    file that does not parse or on a field the form lacks, and otherwise
    the rest of the handler on the updated record. *)
Lemma update_handler_eq e id b file fs :
  update_handler e id b file fs
  = match metadata fs id with
    | None => (fs, Ok (failure 404 "Profile not found"))
    | Some (CRaw _) => (fs, Throw)
    | Some (CJson r) =>
        match body_name b, body_address b, body_note b with
        | Some _, Some _, Some _ =>
            ((match file with
              | Some f => replace_photo id (updated_record e b r) f
              | None => mret (updated_record e b r)
              end) ≫= λ r', Fs.writeFile (PEntry id "profile.json") (CJson r');;
                 mret (json (BSuccess id (link_of id)
                               "Profile updated successfully"))) fs
        | _, _, _ => (fs, Throw)
        end
    end.
Proof.
  unfold update_handler, getJsonPath, metadata.
  rewrite bind_eq. unfold pathExists at 1. simpl.
  destruct (file_of fs id "profile.json") as [c|] eqn:Hm; simpl; [|done].
  rewrite bind_eq, readFile_entry, Hm. destruct c as [r|raw]; simpl; [|done].
  unfold updated_record.
  destruct (body_name b) as [n|]; simpl; [|done].
  destruct (body_address b) as [a|]; simpl; [|done].
  destruct (body_note b) as [o|]; simpl; done.
Qed.

Lemma replace_photo_ok id r f fs d old c :
  r !! "photo" = Some (JStr old) →
  dir_of fs id = Some d →
  temp fs !! file_path f = Some c →
  ∃ fs',
    replace_photo id r f fs
    = (fs', Ok (<["photo" := JStr ("photo" ++ JS.toLowerCase
                                    (Path.extname (file_originalname f)))]> r))
    ∧ dir_of fs' id
      = Some (<["photo" ++ JS.toLowerCase (Path.extname (file_originalname f))
                 := c]> (delete old d))
    ∧ temp fs' = delete (file_path f) (temp fs)
    ∧ ∀ id', id' ≠ id → entries fs' !! id' = entries fs !! id'.
Proof.
  intros Hphoto Hdir Htmp. unfold replace_photo, getPhotoPath. rewrite Hphoto.
  rewrite bind_eq. unfold pathExists at 1. simpl. unfold file_of. rewrite Hdir.
  destruct (d !! old) as [c0|] eqn:Hold; simpl.
  - rewrite bind_eq, unlink_entry, Hdir, Hold.
    rewrite bind_eq, rename_upload. simpl. rewrite Htmp, dir_of_set_dir.
    eexists. split; [reflexivity|]. split; [|split; [done|]].
    + rewrite dir_of_entries. unfold entries. simpl. by rewrite lookup_insert_eq.
    + intros id' Hne. unfold entries at 1. simpl.
      rewrite !lookup_insert_ne by done. done.
  - rewrite bind_eq. unfold mret at 1, io_ret at 1.
    rewrite bind_eq, rename_upload. rewrite Htmp, Hdir.
    eexists. split; [reflexivity|]. split; [|split; [done|]].
    + rewrite dir_of_entries. unfold entries. simpl. rewrite lookup_insert_eq.
      by rewrite delete_id.
    + intros id' Hne. unfold entries at 1. simpl.
      rewrite !lookup_insert_ne by done. done.
Qed.

Lemma replace_photo_throw id r f fs :
  (∀ old, r !! "photo" ≠ Some (JStr old)) → replace_photo id r f fs = (fs, Throw).
Proof.
  intros H. unfold replace_photo.
  destruct (r !! "photo") as [[|old]|]; try done. by destruct (H old).
Qed.

Lemma update_no_file e id b fs :
  put_profile e id b None fs
  = try_catch (update_handler e id b None) "Failed to update profile" fs.
Proof. reflexivity. Qed.

Lemma update_accepted e id b u fs :
  accepted u →
  put_profile e id b (Some u) fs
  = try_catch (update_handler e id b
                 (Some {| file_originalname := originalname u;
                          file_path := uniqueName e u |}))
      "Failed to update profile" (staged e u fs).
Proof. intros H. unfold put_profile. by rewrite upload_accepted. Qed.

Lemma photo_untouched e b r : updated_record e b r !! "photo" = r !! "photo".
Proof.
  apply updated_record_other. rewrite !not_elem_of_cons.
  split_and!; try discriminate. apply not_elem_of_nil.
Qed.

(** What a successful run of the handler needs. *)
Lemma update_handler_needs e id b file fs :
  status (try_catch (update_handler e id b file) "Failed to update profile" fs).2
  = 200 →
  ∃ d r,
    dir_of fs id = Some d ∧ d !! "profile.json" = Some (CJson r)
    ∧ is_Some (body_name b) ∧ is_Some (body_address b) ∧ is_Some (body_note b)
    ∧ (is_Some file → ∃ old, r !! "photo" = Some (JStr old)).
Proof.
  unfold try_catch. rewrite update_handler_eq.
  destruct (metadata fs id) as [[r|raw]|] eqn:Hm; [| discriminate | discriminate].
  apply metadata_dir in Hm as (d & Hd & Hjson).
  destruct (body_name b) as [n|] eqn:Hn; [|discriminate].
  destruct (body_address b) as [a|] eqn:Ha; [|discriminate].
  destruct (body_note b) as [o|] eqn:Ho; [|discriminate].
  intros Hst. exists d, r. do 5 (split; [eauto|]).
  intros [f ->]. destruct (r !! "photo") as [[|old]|] eqn:Hphoto; [|eauto|].
  - rewrite bind_eq, replace_photo_throw in Hst; [discriminate|].
    intros old. rewrite photo_untouched. congruence.
  - rewrite bind_eq, replace_photo_throw in Hst; [discriminate|].
    intros old. rewrite photo_untouched. congruence.
Qed.

Lemma update_handler_plain e id b fs d r :
  dir_of fs id = Some d → d !! "profile.json" = Some (CJson r) →
  is_Some (body_name b) → is_Some (body_address b) → is_Some (body_note b) →
  try_catch (update_handler e id b None) "Failed to update profile" fs
  = (set_dir fs id (<["profile.json" := CJson (updated_record e b r)]> d),
     json (BSuccess id (link_of id) "Profile updated successfully")).
Proof.
  intros Hd Hjson [n Hn] [a Ha] [o Ho].
  unfold try_catch. rewrite update_handler_eq.
  rewrite (proj2 (metadata_dir fs id (CJson r))) by eauto.
  rewrite Hn, Ha, Ho. rewrite bind_eq. unfold mret at 1, io_ret at 1.
  rewrite bind_eq, writeFile_entry, Hd. reflexivity.
Qed.

Lemma update_handler_photo e id b f fs d r old c :
  dir_of fs id = Some d → d !! "profile.json" = Some (CJson r) →
  is_Some (body_name b) → is_Some (body_address b) → is_Some (body_note b) →
  r !! "photo" = Some (JStr old) →
  temp fs !! file_path f = Some c →
  ∃ fs',
    try_catch (update_handler e id b (Some f)) "Failed to update profile" fs
    = (fs', json (BSuccess id (link_of id) "Profile updated successfully"))
    ∧ dir_of fs' id
      = Some (<["profile.json" :=
                 CJson (<["photo" := JStr ("photo" ++ JS.toLowerCase
                            (Path.extname (file_originalname f)))]>
                          (updated_record e b r))]>
              (<["photo" ++ JS.toLowerCase (Path.extname (file_originalname f))
                  := c]> (delete old d)))
    ∧ temp fs' = delete (file_path f) (temp fs)
    ∧ ∀ id', id' ≠ id → entries fs' !! id' = entries fs !! id'.
Proof.
  intros Hd Hjson [n Hn] [a Ha] [o Ho] Hphoto Htmp.
  unfold try_catch. rewrite update_handler_eq.
  rewrite (proj2 (metadata_dir fs id (CJson r))) by eauto.
  rewrite Hn, Ha, Ho.
  destruct (replace_photo_ok id (updated_record e b r) f fs d old c)
    as (fs1 & Hrp & Hdir1 & Htmp1 & Hother1); [|done|done|].
  { by rewrite photo_untouched. }
  rewrite bind_eq, Hrp. rewrite bind_eq, writeFile_entry, Hdir1.
  eexists. split; [reflexivity|]. split; [by rewrite dir_of_set_dir|].
  split; [done|].
  intros id' Hne. rewrite entries_set_dir, lookup_insert_ne by done. auto.
Qed.

(** Every successful update found a record and leaves the directory as
    described: the rewritten record, and with a stored image the old
    photo removed and the new one under its normalised name. *)
Lemma update_success e id b f fs :
  status (put_profile e id b f fs).2 = 200 →
  ∃ d r,
    dir_of fs id = Some d ∧ d !! "profile.json" = Some (CJson r)
    ∧ (put_profile e id b f fs).2
      = json (BSuccess id (link_of id) "Profile updated successfully")
    ∧ (∀ id', id' ≠ id →
         entries (put_profile e id b f fs).1 !! id' = entries fs !! id')
    ∧ match f with
      | None =>
          dir_of (put_profile e id b f fs).1 id
          = Some (<["profile.json" := CJson (updated_record e b r)]> d)
          ∧ temp (put_profile e id b f fs).1 = temp fs
      | Some u =>
          accepted u
          ∧ ∃ old,
              r !! "photo" = Some (JStr old)
              ∧ dir_of (put_profile e id b f fs).1 id
                = Some (<["profile.json" :=
                           CJson (<["photo" := JStr (photo_name u)]>
                                    (updated_record e b r))]>
                        (<[photo_name u := data u]> (delete old d)))
              ∧ temp (put_profile e id b f fs).1
                = delete (uniqueName e u) (<[uniqueName e u := data u]> (temp fs))
      end.
Proof.
  destruct f as [u|].
  - destruct (upload_cases u) as [Hr|[[Hf Hl]|Hacc]].
    { unfold put_profile. rewrite upload_refused by done. discriminate. }
    { unfold put_profile. rewrite upload_too_large by done. discriminate. }
    rewrite update_accepted by done. intros Hst.
    apply update_handler_needs in Hst as (d & r & Hd & Hjson & Hn & Ha & Ho & Hp).
    destruct Hp as [old Hold]; [eauto|].
    destruct (update_handler_photo e id b
                {| file_originalname := originalname u;
                   file_path := uniqueName e u |}
                (staged e u fs) d r old (data u))
      as (fs' & Heq & Hdir' & Htmp' & Hother'); try done.
    { simpl. apply lookup_insert_eq. }
    rewrite Heq. simpl. exists d, r. eauto 10.
  - rewrite update_no_file. intros Hst.
    apply update_handler_needs in Hst as (d & r & Hd & Hjson & Hn & Ha & Ho & _).
    rewrite (update_handler_plain e id b fs d r) by done. simpl.
    exists d, r. split; [done|]. split; [done|]. split; [done|].
    split; [|split; [|done]].
    + intros id' Hne. rewrite entries_set_dir, lookup_insert_ne by done. done.
    + by rewrite dir_of_set_dir.
Qed.

Lemma dir_metadata fs id d c :
  dir_of fs id = Some (<["profile.json" := c]> d) → metadata fs id = Some c.
Proof.
  intros H. apply metadata_dir. eexists. split; [exact H|].
  apply lookup_insert_eq.
Qed.

(** C5: a successful update with a replacement image leaves the new
    image under [photo<ext>], records that name in [photo] and leaves no
    file under the previous name (whether or not there was one); a
    successful update without an image leaves [photo] and the files of
    the directory as they were; both set [updatedAt] to the current
    time. *)
Theorem update_replaces_photo e id b f fs :
  status (put_profile e id b f fs).2 = 200 →
  ∃ r r',
    metadata fs id = Some (CJson r)
    ∧ metadata (put_profile e id b f fs).1 id = Some (CJson r')
    ∧ r' !! "updatedAt" = Some (JStr (now1 e))
    ∧ match f with
      | Some u =>
          ∃ old,
            r !! "photo" = Some (JStr old)
            ∧ r' !! "photo" = Some (JStr (photo_name u))
            ∧ file_of (put_profile e id b f fs).1 id (photo_name u)
              = Some (data u)
            ∧ (old ≠ photo_name u → old ≠ "profile.json" →
               file_of (put_profile e id b f fs).1 id old = None)
      | None =>
          r' !! "photo" = r !! "photo"
          ∧ ∀ name, name ≠ "profile.json" →
              file_of (put_profile e id b f fs).1 id name = file_of fs id name
      end.
Proof.
  intros Hst.
  destruct (update_success e id b f fs Hst) as (d & r & Hd & Hjson & _ & _ & Hf).
  assert (Hm : metadata fs id = Some (CJson r)) by (apply metadata_dir; eauto).
  destruct f as [u|].
  - destruct Hf as (_ & old & Hold & Hdir & _).
    exists r, (<["photo" := JStr (photo_name u)]> (updated_record e b r)).
    split; [done|]. split; [by eapply dir_metadata|]. split.
    { rewrite lookup_insert_ne by discriminate.
      apply updated_record_fields. }
    exists old. split; [done|]. split; [apply lookup_insert_eq|].
    unfold file_of. rewrite Hdir. split.
    + rewrite lookup_insert_ne by (symmetry; apply photo_name_not_json).
      apply lookup_insert_eq.
    + intros Hne Hnj. rewrite !lookup_insert_ne by congruence.
      apply lookup_delete_eq.
  - destruct Hf as [Hdir _].
    exists r, (updated_record e b r).
    split; [done|]. split; [by eapply dir_metadata|]. split.
    { apply updated_record_fields. }
    split; [apply photo_untouched|].
    intros name Hname. unfold file_of. rewrite Hdir, Hd.
    by rewrite lookup_insert_ne by congruence.
Qed.

(** C8, amended: the [photo] field a create leaves, and the one an update
    with a replacement image leaves, is [photo] followed by the
    lowercased [path.extname] of the uploaded file's original name: the
    extension with its dot, or nothing when the name has no extension. *)
Theorem stored_photo_name e id b f fs :
  (status (post_profiles e b f fs).2 = 200 →
   ∃ u r,
     f = Some u
     ∧ metadata (post_profiles e b f fs).1 (uuid e) = Some (CJson r)
     ∧ r !! "photo"
       = Some (JStr ("photo" ++ JS.toLowerCase (Path.extname (originalname u)))))
  ∧ (status (put_profile e id b f fs).2 = 200 →
     ∀ u, f = Some u →
     ∃ r,
       metadata (put_profile e id b f fs).1 id = Some (CJson r)
       ∧ r !! "photo"
         = Some (JStr ("photo" ++ JS.toLowerCase (Path.extname (originalname u))))).
Proof.
  split.
  - intros Hst.
    destruct (post_profiles e b f fs) as [fs' resp] eqn:Hpost.
    destruct (create_success e b f fs fs' resp Hpost Hst)
      as (u & r & -> & _ & _ & _ & Hdir & Hphoto & _).
    exists u, r. split; [done|]. split; [by eapply dir_metadata | done].
  - intros Hst u ->.
    destruct (update_success e id b (Some u) fs Hst)
      as (d & r & _ & _ & _ & _ & _ & old & _ & Hdir & _).
    eexists. split; [by eapply dir_metadata|]. apply lookup_insert_eq.
Qed.

(** C9, amended: a [contact] field that is absent or the empty string is
    stored as [null] by a create and by an update. *)
Theorem empty_contact_is_null e id b f fs :
  missing (body_contact b) →
  (status (post_profiles e b f fs).2 = 200 →
   ∃ r, metadata (post_profiles e b f fs).1 (uuid e) = Some (CJson r)
        ∧ r !! "contact" = Some JNull)
  ∧ (status (put_profile e id b f fs).2 = 200 →
     ∃ r, metadata (put_profile e id b f fs).1 id = Some (CJson r)
          ∧ r !! "contact" = Some JNull).
Proof.
  intros Hc. apply contact_value_missing in Hc. split.
  - intros Hst.
    destruct (post_profiles e b f fs) as [fs' resp] eqn:Hpost.
    destruct (create_success e b f fs fs' resp Hpost Hst)
      as (u & r & -> & _ & _ & _ & Hdir & _ & Hcontact).
    exists r. split; [by eapply dir_metadata|]. by rewrite Hcontact, Hc.
  - intros Hst.
    destruct (update_success e id b f fs Hst) as (d & r & _ & _ & _ & _ & Hf).
    destruct f as [u|].
    + destruct Hf as (_ & old & _ & Hdir & _).
      eexists. split; [by eapply dir_metadata|].
      rewrite lookup_insert_ne by discriminate.
      rewrite <- Hc. apply updated_record_fields.
    + destruct Hf as [Hdir _].
      eexists. split; [by eapply dir_metadata|].
      rewrite <- Hc. apply updated_record_fields.
Qed.

(** C10: a successful update leaves [id] and [createdAt] of the stored
    record as they were, and with them every field other than [name],
    [address], [contact], [date], [note], [updatedAt] and [photo]; those
    six text fields are rewritten from the form, and [photo] is left
    alone when no image comes with the request. *)
Theorem update_keeps_other_fields e id b f fs :
  status (put_profile e id b f fs).2 = 200 →
  ∃ r r',
    metadata fs id = Some (CJson r)
    ∧ metadata (put_profile e id b f fs).1 id = Some (CJson r')
    ∧ r' !! "id" = r !! "id"
    ∧ r' !! "createdAt" = r !! "createdAt"
    ∧ (∀ k, k ∉ update_keys → r' !! k = r !! k)
    ∧ (f = None → r' !! "photo" = r !! "photo")
    ∧ r' !! "name" = Some (JStr (JS.trim (default "" (body_name b))))
    ∧ r' !! "address" = Some (JStr (JS.trim (default "" (body_address b))))
    ∧ r' !! "contact" = Some (contact_value (body_contact b))
    ∧ r' !! "date" = JStr <$> body_date b
    ∧ r' !! "note" = Some (JStr (JS.trim (default "" (body_note b))))
    ∧ r' !! "updatedAt" = Some (JStr (now1 e)).
Proof.
  intros Hst.
  destruct (update_success e id b f fs Hst) as (d & r & Hd & Hjson & _ & _ & Hf).
  assert (Hm : metadata fs id = Some (CJson r)) by (apply metadata_dir; eauto).
  assert (Hother : ∀ k, k ∉ update_keys → updated_record e b r !! k = r !! k).
  { intros k Hk. apply updated_record_other. unfold update_keys in Hk.
    rewrite !not_elem_of_cons in Hk. rewrite !not_elem_of_cons. tauto. }
  assert (Hkeys : ∀ k, k ∉ update_keys → k ≠ "photo").
  { intros k Hk ->. apply Hk. unfold update_keys.
    rewrite !elem_of_cons. tauto. }
  assert (Hid : "id" ∉ update_keys).
  { unfold update_keys. rewrite !not_elem_of_cons.
    split_and!; try discriminate. apply not_elem_of_nil. }
  assert (Hcr : "createdAt" ∉ update_keys).
  { unfold update_keys. rewrite !not_elem_of_cons.
    split_and!; try discriminate. apply not_elem_of_nil. }
  pose proof (updated_record_fields e b r) as (Hu & Hc & Hn & Ha & Ho & Hdt).
  destruct f as [u|].
  - destruct Hf as (_ & old & _ & Hdir & _).
    exists r, (<["photo" := JStr (photo_name u)]> (updated_record e b r)).
    split; [done|]. split; [by eapply dir_metadata|].
    split; [by rewrite lookup_insert_ne by discriminate; apply Hother|].
    split; [by rewrite lookup_insert_ne by discriminate; apply Hother|].
    split.
    { intros k Hk. rewrite lookup_insert_ne; [by apply Hother|].
      intros <-. by apply (Hkeys "photo"). }
    split; [discriminate|].
    rewrite !lookup_insert_ne by discriminate. by split_and!.
  - destruct Hf as [Hdir _].
    exists r, (updated_record e b r).
    split; [done|]. split; [by eapply dir_metadata|].
    split; [by apply Hother|]. split; [by apply Hother|].
    split; [done|]. split; [intros _; apply photo_untouched|].
    by split_and!.
Qed.

(** An update succeeds on a stored record as soon as the form has the
    three trimmed fields and, when an image comes with it, the image is
    stored by multer and the record names its photo. *)
Lemma update_succeeds e id b f fs r :
  metadata fs id = Some (CJson r) →
  is_Some (body_name b) → is_Some (body_address b) → is_Some (body_note b) →
  (∀ u, f = Some u → accepted u ∧ ∃ old, r !! "photo" = Some (JStr old)) →
  (put_profile e id b f fs).2
  = json (BSuccess id (link_of id) "Profile updated successfully").
Proof.
  intros Hm Hn Ha Ho Hf. apply metadata_dir in Hm as (d & Hd & Hjson).
  destruct f as [u|].
  - destruct (Hf u eq_refl) as [Hacc [old Hold]].
    rewrite update_accepted by done.
    destruct (update_handler_photo e id b
                {| file_originalname := originalname u;
                   file_path := uniqueName e u |}
                (staged e u fs) d r old (data u))
      as (fs' & Heq & _); try done.
    { simpl. apply lookup_insert_eq. }
    by rewrite Heq.
  - rewrite update_no_file. by erewrite update_handler_plain.
Qed.

Lemma classic_readable c : readable c ∨ ¬ readable c.
Proof.
  unfold readable. destruct c as [r|raw].
  - destruct (r !! "note") as [[|note]|] eqn:Hn.
    + right. intros (r' & n & [= <-] & ?). congruence.
    + left. eauto.
    + right. intros (r' & n & [= <-] & ?). congruence.
  - right. intros (r' & n & ? & ?). discriminate.
Qed.

Lemma all_readable_true fs :
  all_readable fs = true → ∀ id c, metadata fs id = Some c → readable c.
Proof.
  unfold all_readable. rewrite forallb_forall. intros H id c Hm.
  specialize (H id). rewrite <- list_elem_of_In in H.
  specialize (H (metadata_in_folders _ _ _ Hm)).
  destruct (read_summary fs id) as [o|] eqn:Hr; [|done].
  destruct (classic_readable c) as [Hc|Hc]; [done|].
  assert (read_summary fs id = Throw) by (apply read_summary_throw; eauto).
  congruence.
Qed.

(** ** Where the handlers fall short of the stated properties *)

(** C1 as stated fails: Get answers 200 for a profile whose metadata
    record is stored and whose photo file is not. *)
Lemma get_exposes_record_without_photo :
  ¬ (∀ fs id,
       status (get_profile id fs).2 = 200 →
       ∃ r p, metadata fs id = Some (CJson r) ∧ r !! "photo" = Some (JStr p)
              ∧ is_Some (file_of fs id p)).
Proof.
  intros H. destruct (H store_no_photo "p1") as (r & p & Hr & Hp & Hf).
  - vm_compute. reflexivity.
  - vm_compute in Hr. injection Hr as <-.
    vm_compute in Hp. injection Hp as <-.
    vm_compute in Hf. destruct Hf as [c Hc]. discriminate.
Qed.

(** C2 as stated fails: with one metadata file that is not JSON in the
    store, the listing returns no summary at all, not even that of the
    complete profile next to it. *)
Lemma list_fails_on_corrupt_store :
  ¬ (∀ fs, ∃ l,
       (get_profiles iso_date fs).2 = json (BProfiles l)
       ∧ ∀ id r, metadata fs id = Some (CJson r) → readable (CJson r) →
                 ∃ s, s ∈ l ∧ is_summary_of r s).
Proof.
  intros H. destruct (H store_corrupt) as (l & Hl & _).
  vm_compute in Hl. discriminate.
Qed.

(** C3 as stated fails: a name of white space only passes the check and
    the profile is created. *)
Lemma create_accepts_blank_name :
  ¬ (∀ e b f fs,
       blank (body_name b) ∨ blank (body_address b) ∨ blank (body_date b)
       ∨ blank (body_note b) ∨ f = None →
       status (post_profiles e b f fs).2 = 400
       ∧ profiles (post_profiles e b f fs).1 = profiles fs).
Proof.
  intros H. destruct (H env0 form_blank_name (Some jpeg) empty_store) as [Hs _].
  - left. right. exists " ". split; reflexivity.
  - vm_compute in Hs. discriminate.
Qed.

(** C4 as stated fails: when the name is missing and an image comes with
    the request, the upload stays in the staging directory. *)
Lemma create_validation_leaves_upload :
  ¬ (∀ e b f fs,
       some_missing b ∨ f = None → (post_profiles e b f fs).1 = fs).
Proof.
  intros H. specialize (H env0 form_no_name (Some jpeg) empty_store).
  assert (Ht : temp (post_profiles env0 form_no_name (Some jpeg) empty_store).1
               !! "1700000000000-k3j9x0q1z.JPG" = Some (CRaw "JFIF")).
  { vm_compute. reflexivity. }
  rewrite H in Ht.
  - vm_compute in Ht. discriminate.
  - left. left. by left.
Qed.

(** C6: the code at a text file sent as the photo: the answer is the
    generic 500 of the error middleware, with nothing written. *)
Theorem non_image_upload_answers_500 :
  post_profiles env0 form0 (Some text_file) empty_store
  = (empty_store, failure 500 "Internal server error").
Proof. apply create_refused. vm_compute. reflexivity. Qed.

(** C7 as stated fails: a directory whose metadata file does not parse
    makes the listing fail. *)
Lemma list_fails_on_unparsable_metadata :
  ¬ (∀ fs id,
       metadata fs id = None ∨ (∃ raw, metadata fs id = Some (CRaw raw)) →
       status (get_profiles iso_date fs).2 = 200).
Proof.
  intros H. specialize (H store_corrupt "p2").
  assert (Hs : status (get_profiles iso_date store_corrupt).2 = 500).
  { vm_compute. reflexivity. }
  rewrite H in Hs; [discriminate|].
  right. exists "{oops". vm_compute. reflexivity.
Qed.

(** C8 as stated fails: an image whose original name has no extension is
    stored as [photo], without a dot and without an extension. *)
Lemma photo_name_without_extension :
  ¬ (∀ e b f fs,
       status (post_profiles e b f fs).2 = 200 →
       ∃ r ext,
         metadata (post_profiles e b f fs).1 (uuid e) = Some (CJson r)
         ∧ r !! "photo" = Some (JStr ("photo." ++ ext))).
Proof.
  intros H.
  destruct (H env0 form0 (Some bare_image) empty_store)
    as (r & ext & Hr & Hext).
  - vm_compute. reflexivity.
  - vm_compute in Hr. injection Hr as <-.
    vm_compute in Hext. discriminate.
Qed.

(** C9 as stated fails: a contact of white space only is stored as the
    empty string. *)
Lemma blank_contact_stored_empty :
  ¬ (∀ e b f fs,
       blank (body_contact b) →
       status (post_profiles e b f fs).2 = 200 →
       ∃ r, metadata (post_profiles e b f fs).1 (uuid e) = Some (CJson r)
            ∧ r !! "contact" = Some JNull).
Proof.
  intros H.
  destruct (H env0 form_blank_contact (Some jpeg) empty_store)
    as (r & Hr & Hc).
  - right. exists " ". split; reflexivity.
  - vm_compute. reflexivity.
  - vm_compute in Hr. injection Hr as <-.
    vm_compute in Hc. discriminate.
Qed.

(** ** The theorems at work on the sample data *)

Lemma reads_follow_metadata_witness :
  metadata store_no_photo "p1"
  = Some (CJson (record_of "p1" "2024-01-01" "hello" "photo.jpg"))
  ∧ get_profile "p1" store_no_photo
    = (store_no_photo,
       json (BProfile
               (<["photoUrl" :=
                   JStr (photoUrl (record_of "p1" "2024-01-01" "hello" "photo.jpg"))]>
                  (record_of "p1" "2024-01-01" "hello" "photo.jpg")))).
Proof.
  assert (H : metadata store_no_photo "p1"
              = Some (CJson (record_of "p1" "2024-01-01" "hello" "photo.jpg"))).
  { vm_compute. reflexivity. }
  split; [exact H|].
  exact (proj1 (proj2 (reads_follow_metadata iso_date store_no_photo "p1")) _ H).
Defined.

Lemma list_returns_summaries_witness :
  (∀ id c, metadata store2 id = Some c → readable c)
  ∧ ∃ entries l,
      get_profiles iso_date store2 = (store2, json (BProfiles l))
      ∧ NoDup entries.*1
      ∧ (∀ id r, (id, r) ∈ entries ↔ metadata store2 id = Some (CJson r))
      ∧ Forall2 (λ e s, is_summary_of e.2 s) entries l
      ∧ ((∀ id r, metadata store2 id = Some (CJson r) →
                 is_Some (time_value iso_date (r !! "date"))) →
         StronglySorted (not_older iso_date) l).
Proof.
  assert (H : ∀ id c, metadata store2 id = Some c → readable c).
  { apply all_readable_true. vm_compute. reflexivity. }
  split; [exact H|]. exact (list_returns_summaries iso_date store2 H).
Defined.

Lemma create_rejects_missing_fields_witness :
  status (post_profiles env0 form_no_name (Some jpeg) empty_store).2 = 400
  ∧ profiles (post_profiles env0 form_no_name (Some jpeg) empty_store).1
    = profiles empty_store.
Proof.
  apply (create_rejects_missing_fields env0 form_no_name (Some jpeg) empty_store).
  - left. left. left. reflexivity.
  - intros u Hu. injection Hu as <-. vm_compute. reflexivity.
Defined.

Lemma create_validation_leaves_store_witness :
  (post_profiles env0 form_no_name (Some jpeg) empty_store).2
  = failure 400 "All fields are required"
  ∧ profiles (post_profiles env0 form_no_name (Some jpeg) empty_store).1
    = profiles empty_store
  ∧ temp (post_profiles env0 form_no_name (Some jpeg) empty_store).1
    = <[uniqueName env0 jpeg := data jpeg]> (temp empty_store).
Proof.
  apply (create_validation_leaves_store env0 form_no_name (Some jpeg) empty_store).
  - left. left. left. reflexivity.
  - intros u Hu. injection Hu as <-. split.
    + vm_compute. reflexivity.
    + vm_compute. discriminate.
Defined.

Lemma update_replaces_photo_witness :
  status (put_profile env0 "p1" form_edit (Some png) store_no_photo).2 = 200
  ∧ ∃ r r',
      metadata store_no_photo "p1" = Some (CJson r)
      ∧ metadata (put_profile env0 "p1" form_edit (Some png) store_no_photo).1 "p1"
        = Some (CJson r')
      ∧ r' !! "updatedAt" = Some (JStr (now1 env0))
      ∧ ∃ old,
          r !! "photo" = Some (JStr old)
          ∧ r' !! "photo" = Some (JStr (photo_name png))
          ∧ file_of (put_profile env0 "p1" form_edit (Some png) store_no_photo).1
              "p1" (photo_name png) = Some (data png)
          ∧ (old ≠ photo_name png → old ≠ "profile.json" →
             file_of (put_profile env0 "p1" form_edit (Some png) store_no_photo).1
               "p1" old = None).
Proof.
  assert (H : status (put_profile env0 "p1" form_edit (Some png)
                        store_no_photo).2 = 200).
  { vm_compute. reflexivity. }
  split; [exact H|].
  exact (update_replaces_photo env0 "p1" form_edit (Some png) store_no_photo H).
Defined.

Lemma list_skips_absent_metadata_witness :
  (∃ l, get_profiles iso_date store2 = (store2, json (BProfiles l))
        ∧ length l
          = length (filter (λ f, is_Some (metadata store2 f)) (folders_of store2))
        ∧ ∀ s, s ∈ l →
            ∃ id r, metadata store2 id = Some (CJson r) ∧ is_summary_of r s)
  ∧ get_profiles iso_date store_corrupt
    = (store_corrupt, failure 500 "Failed to fetch profiles").
Proof.
  split.
  - apply (proj1 (list_skips_absent_metadata iso_date store2)).
    apply all_readable_true. vm_compute. reflexivity.
  - apply (proj2 (list_skips_absent_metadata iso_date store_corrupt)
             "p2" (CRaw "{oops")).
    + vm_compute. reflexivity.
    + intros (r & n & Hr & _). discriminate.
Defined.

Lemma stored_photo_name_witness :
  ∃ u r,
    Some jpeg = Some u
    ∧ metadata (post_profiles env0 form0 (Some jpeg) empty_store).1 (uuid env0)
      = Some (CJson r)
    ∧ r !! "photo"
      = Some (JStr ("photo" ++ JS.toLowerCase (Path.extname (originalname u)))).
Proof.
  apply (proj1 (stored_photo_name env0 "p1" form0 (Some jpeg) empty_store)).
  vm_compute. reflexivity.
Defined.

Lemma empty_contact_is_null_witness :
  ∃ r,
    metadata (post_profiles env0 form0 (Some jpeg) empty_store).1 (uuid env0)
    = Some (CJson r)
    ∧ r !! "contact" = Some JNull.
Proof.
  apply (proj1 (empty_contact_is_null env0 "p1" form0 (Some jpeg) empty_store
                  (or_introl eq_refl))).
  vm_compute. reflexivity.
Defined.

Lemma update_keeps_other_fields_witness :
  status (put_profile env0 "p1" form_edit None store2).2 = 200
  ∧ ∃ r r',
      metadata store2 "p1" = Some (CJson r)
      ∧ metadata (put_profile env0 "p1" form_edit None store2).1 "p1"
        = Some (CJson r')
      ∧ r' !! "id" = r !! "id"
      ∧ r' !! "createdAt" = r !! "createdAt".
Proof.
  assert (H : status (put_profile env0 "p1" form_edit None store2).2 = 200).
  { vm_compute. reflexivity. }
  split; [exact H|].
  destruct (update_keeps_other_fields env0 "p1" form_edit None store2 H)
    as (r & r' & Hr & Hr' & Hid & Hcr & _).
  exists r, r'. auto.
Defined.
Example extname_html : Path.extname "index.html" = ".html".
Proof. reflexivity. Qed.
Example extname_two : Path.extname "index.coffee.md" = ".md".
Proof. reflexivity. Qed.
Example extname_dot : Path.extname "index." = ".".
Proof. reflexivity. Qed.
Example extname_none : Path.extname "index" = "".
Proof. reflexivity. Qed.
Example extname_hidden : Path.extname ".index" = "".
Proof. reflexivity. Qed.
Example extname_hidden_md : Path.extname ".index.md" = ".md".
Proof. reflexivity. Qed.
Example extname_dotdot : Path.extname ".." = "".
Proof. reflexivity. Qed.
Example extname_dir : Path.extname "a.b/c" = "".
Proof. reflexivity. Qed.
Example extname_trailing : Path.extname "shot.PNG/" = ".PNG".
Proof. reflexivity. Qed.
Example trim_both : JS.trim "  a b  " = "a b".
Proof. reflexivity. Qed.
Example trim_blank : JS.trim "   " = "".
Proof. reflexivity. Qed.
Example lower_jpg : JS.toLowerCase ".JPG" = ".jpg".
Proof. reflexivity. Qed.
Example short_note_kept : short_note "hello" = "hello".
Proof. reflexivity. Qed.
Example short_note_cut :
  short_note long_note = "01234567890123456789012345678901234567890123456789...".
Proof. reflexivity. Qed.
Example iso_date_epoch : iso_date "1970-01-02" = Some 86400000%Z.
Proof. reflexivity. Qed.
Example iso_date_invalid : iso_date "next week" = None.
Proof. reflexivity. Qed.

(** Create, then fetch: the note comes back and the photo URL ends in
    [/images/<id>/photo.jpg]. *)
Example create_then_get :
  match (get_profile "3f2a"
           (post_profiles env0 form0 (Some jpeg) empty_store).1).2 with
  | {| status := 200; payload := BProfile r |} =>
      r !! "note" = Some (JStr "hello")
      ∧ r !! "photoUrl" = Some (JStr "/images/3f2a/photo.jpg")
  | _ => False
  end.
Proof. vm_compute. split; reflexivity. Qed.

(** The listing of the sample store: newest first, the long note cut. *)
Example list_store2 :
  match (get_profiles iso_date store2).2 with
  | {| status := 200; payload := BProfiles l |} =>
      (λ s, (sum_id s, sum_note s)) <$> l
      = [(Some (JStr "p2"),
          "01234567890123456789012345678901234567890123456789...");
         (Some (JStr "p1"), "hello")]
  | _ => False
  end.
Proof. vm_compute. reflexivity. Qed.

(** Deleting a profile removes its directory; the id is then not found. *)
Example delete_then_get :
  (delete_profile "p1" store2).2 = json (BDeleted "Profile deleted successfully")
  ∧ (get_profile "p1" (delete_profile "p1" store2).1).2
    = failure 404 "Profile not found"
  ∧ (delete_profile "p1" (delete_profile "p1" store2).1).2
    = failure 404 "Profile not found".
Proof. vm_compute. repeat split; reflexivity. Qed.

(** A file over the size limit is answered with 400 by the error
    middleware. *)
Example oversized_upload :
  (post_profiles env0 form0
     (Some {| originalname := "big.png"; mimetype := "image/png";
              size := 6 * 1024 * 1024; data := CRaw "PNG" |}) empty_store).2
  = failure 400 "File too large. Max 5MB".
Proof. vm_compute. reflexivity. Qed.

(** ** Further properties of the handlers *)

(** *** Outcomes of the routes *)

Lemma get_profile_corrupt fs id raw :
  metadata fs id = Some (CRaw raw) →
  get_profile id fs = (fs, failure 500 "Failed to fetch profile").
Proof.
  unfold metadata. intros H.
  unfold get_profile, try_catch, get_handler, getJsonPath. io_unfold. simpl.
  rewrite H. simpl. rewrite readFile_entry, H. reflexivity.
Qed.

Lemma get_profile_state id fs : (get_profile id fs).1 = fs.
Proof.
  destruct (metadata fs id) as [[r|raw]|] eqn:Hm.
  - by rewrite (get_profile_record _ _ _ Hm).
  - by rewrite (get_profile_corrupt _ _ _ Hm).
  - by rewrite (get_profile_absent _ _ Hm).
Qed.

Lemma get_profiles_state Date_parse fs : (get_profiles Date_parse fs).1 = fs.
Proof.
  destruct (folders_dichotomy fs (folders_of fs)) as [Hok|Hbad].
  - by rewrite (list_handler_ok _ _ Hok).
  - by rewrite (list_handler_throw _ _ Hbad).
Qed.

Lemma delete_profile_eq id fs :
  delete_profile id fs
  = match entries fs !! id with
    | Some _ =>
        ({| profiles := Some (delete id (entries fs)); temp := temp fs |},
         json (BDeleted "Profile deleted successfully"))
    | None => (fs, failure 404 "Profile not found")
    end.
Proof.
  unfold delete_profile, try_catch, delete_handler, getProfilePath, Fs.rm, entries.
  io_unfold. simpl. destruct (profiles fs) as [m|] eqn:Hp; simpl.
  - destruct (m !! id) as [n|] eqn:Hid; simpl.
    + by rewrite Hp.
    + done.
  - by rewrite lookup_empty.
Qed.

Lemma update_not_found e id b file fs :
  metadata fs id = None →
  try_catch (update_handler e id b file) "Failed to update profile" fs
  = (fs, failure 404 "Profile not found").
Proof. intros H. unfold try_catch. by rewrite update_handler_eq, H. Qed.

Lemma update_corrupt e id b file fs raw :
  metadata fs id = Some (CRaw raw) →
  try_catch (update_handler e id b file) "Failed to update profile" fs
  = (fs, failure 500 "Failed to update profile").
Proof. intros H. unfold try_catch. by rewrite update_handler_eq, H. Qed.

Lemma update_field_missing e id b file fs r :
  metadata fs id = Some (CJson r) →
  body_name b = None ∨ body_address b = None ∨ body_note b = None →
  try_catch (update_handler e id b file) "Failed to update profile" fs
  = (fs, failure 500 "Failed to update profile").
Proof.
  intros H Hf. unfold try_catch. rewrite update_handler_eq, H.
  destruct (body_name b), (body_address b), (body_note b); try done;
    destruct Hf as [|[|]]; discriminate.
Qed.

Lemma update_photo_unnamed e id b f fs r :
  metadata fs id = Some (CJson r) →
  (∀ old, r !! "photo" ≠ Some (JStr old)) →
  try_catch (update_handler e id b (Some f)) "Failed to update profile" fs
  = (fs, failure 500 "Failed to update profile").
Proof.
  intros H Hp. unfold try_catch. rewrite update_handler_eq, H.
  destruct (body_name b), (body_address b), (body_note b); try done.
  rewrite bind_eq, replace_photo_throw; [done|].
  intros old. rewrite photo_untouched. apply Hp.
Qed.

(** A create either fails and leaves the profiles directory as it was, or
    succeeds and leaves the new directory with the photo and the record. *)
Lemma create_outcome e b f fs :
  (status (post_profiles e b f fs).2 ≠ 200
   ∧ profiles (post_profiles e b f fs).1 = profiles fs)
  ∨ (∃ u r n a o,
       f = Some u ∧ accepted u ∧ ¬ some_missing b
       ∧ body_name b = Some n ∧ body_address b = Some a ∧ body_note b = Some o
       ∧ (post_profiles e b f fs).2
         = json (BSuccess (uuid e) (link_of (uuid e))
                   "Profile created successfully")
       ∧ dir_of (post_profiles e b f fs).1 (uuid e)
         = Some (<["profile.json" := CJson r]>
                 (<[photo_name u := data u]> (default ∅ (dir_of fs (uuid e)))))
       ∧ temp (post_profiles e b f fs).1
         = delete (uniqueName e u) (<[uniqueName e u := data u]> (temp fs))
       ∧ (∀ id, id ≠ uuid e →
            entries (post_profiles e b f fs).1 !! id = entries fs !! id)
       ∧ r !! "id" = Some (JStr (uuid e))
       ∧ r !! "name" = Some (JStr (JS.trim n))
       ∧ r !! "address" = Some (JStr (JS.trim a))
       ∧ r !! "contact" = Some (contact_value (body_contact b))
       ∧ r !! "photo" = Some (JStr (photo_name u))
       ∧ r !! "date" = JStr <$> body_date b
       ∧ r !! "note" = Some (JStr (JS.trim o))
       ∧ r !! "createdAt" = Some (JStr (now1 e))
       ∧ r !! "updatedAt" = Some (JStr (now2 e))).
Proof.
  destruct f as [u|]; [|left; by rewrite create_no_file].
  destruct (upload_cases u) as [Hr|[[Hf Hl]|Hacc]].
  { left. by rewrite create_refused. }
  { left. by rewrite create_too_large. }
  destruct (some_missing_dec b) as [Hm|Hv].
  { left. by rewrite create_invalid. }
  pose proof (create_valid e b u fs Hacc Hv) as Hc.
  assert (∃ n a o, body_name b = Some n ∧ body_address b = Some a
                   ∧ body_note b = Some o) as (n & a & o & Hn & Ha & Ho).
  { unfold some_missing, missing in Hv.
    destruct (body_name b), (body_address b), (body_note b);
      try (exfalso; apply Hv; tauto). eauto 10. }
  rewrite Hn, Ha, Ho in Hc. simpl in Hc.
  destruct (entries fs !! uuid e) as [[c|d0]|] eqn:Hid.
  - left. by rewrite Hc.
  - right. destruct Hc as (fs1 & r & -> & ? & ? & ? & ? & ? & ? & ? & ? & ? & ? & ? & ?).
    simpl. exists u, r, n, a, o. by split_and!.
  - right. destruct Hc as (fs1 & r & -> & ? & ? & ? & ? & ? & ? & ? & ? & ? & ? & ? & ?).
    simpl. exists u, r, n, a, o. by split_and!.
Qed.

(** An update either fails and leaves the profiles directory as it was,
    or is answered 200. *)
Lemma update_outcome e id b f fs :
  (status (put_profile e id b f fs).2 ≠ 200
   ∧ profiles (put_profile e id b f fs).1 = profiles fs)
  ∨ status (put_profile e id b f fs).2 = 200.
Proof.
  assert (Hh : ∀ file fs0,
    (∀ sf, file = Some sf → ∃ c, temp fs0 !! file_path sf = Some c) →
    (status (try_catch (update_handler e id b file)
               "Failed to update profile" fs0).2 ≠ 200
     ∧ (try_catch (update_handler e id b file)
          "Failed to update profile" fs0).1 = fs0)
    ∨ status (try_catch (update_handler e id b file)
                "Failed to update profile" fs0).2 = 200).
  { intros file fs0 Htmp.
    destruct (metadata fs0 id) as [[r|raw]|] eqn:Hm.
    - destruct (body_name b) as [n|] eqn:Hn;
        [|left; rewrite (update_field_missing e id b file fs0 r) by auto; done].
      destruct (body_address b) as [a|] eqn:Ha;
        [|left; rewrite (update_field_missing e id b file fs0 r) by auto; done].
      destruct (body_note b) as [o|] eqn:Ho;
        [|left; rewrite (update_field_missing e id b file fs0 r) by auto; done].
      pose proof Hm as Hm'. apply metadata_dir in Hm' as (d & Hd & Hjson).
      destruct file as [sf|].
      + destruct (r !! "photo") as [[|old]|] eqn:Hp.
        * left. rewrite (update_photo_unnamed e id b sf fs0 r); [done|done|].
          intros old. congruence.
        * right. destruct (Htmp sf eq_refl) as [c Hc].
          destruct (update_handler_photo e id b sf fs0 d r old c)
            as (fs' & Heq & _); try done; try (rewrite ?Hn, ?Ha, ?Ho; eauto).
          by rewrite Heq.
        * left. rewrite (update_photo_unnamed e id b sf fs0 r); [done|done|].
          intros old. congruence.
      + right. rewrite (update_handler_plain e id b fs0 d r); try done;
          rewrite ?Hn, ?Ha, ?Ho; eauto.
    - left. by rewrite (update_corrupt e id b file fs0 raw).
    - left. by rewrite update_not_found. }
  destruct f as [u|].
  - destruct (upload_cases u) as [Hr|[[Hf Hl]|Hacc]].
    { left. unfold put_profile. by rewrite upload_refused. }
    { left. unfold put_profile. by rewrite upload_too_large. }
    rewrite update_accepted by done.
    destruct (Hh (Some {| file_originalname := originalname u;
                          file_path := uniqueName e u |}) (staged e u fs))
      as [[Hs Hfs]|Hs]; [| |by right].
    + intros sf [= <-]. simpl. eexists. apply lookup_insert_eq.
    + left. split; [done|]. by rewrite Hfs.
  - rewrite update_no_file.
    destruct (Hh None fs) as [[Hs Hfs]|Hs]; [done| |by right].
    left. split; [done|]. by rewrite Hfs.
Qed.

Lemma metadata_entries fs fs' id :
  entries fs' !! id = entries fs !! id →
  metadata fs' id = metadata fs id ∧ ∀ name, file_of fs' id name = file_of fs id name.
Proof.
  intros H. unfold metadata, file_of. rewrite !dir_of_entries, H. done.
Qed.

Lemma metadata_no_entry fs id : entries fs !! id = None → metadata fs id = None.
Proof.
  intros H. unfold metadata, file_of. by rewrite dir_of_entries, H.
Qed.

Lemma substring0_all (n : nat) (s : string) :
  (String.length s ≤ n)%nat → JS.substring0 n s = s.
Proof.
  unfold JS.substring0. revert n.
  induction s as [|c s IH]; intros [|n] H; simpl in *; try done; try lia.
  f_equal. apply IH. lia.
Qed.

Lemma length_append (s t : string) :
  String.length (s ++ t) = (String.length s + String.length t)%nat.
Proof.
  induction s as [|c s IH]; [reflexivity|].
  change (String c s ++ t) with (String c (s ++ t)). simpl. by rewrite IH.
Qed.

Lemma append_empty (s : string) : s ++ "" = s.
Proof.
  induction s as [|c s IH]; [reflexivity|].
  change (String c s ++ "") with (String c (s ++ "")). by rewrite IH.
Qed.


(** *** Delete *)

(** X1: deleting an entry of the profiles directory answers 200, removes
    that entry and nothing else, and leaves the staging directory alone;
    the id is then unknown to Get, to Delete and to Update. *)
Theorem delete_removes_profile id fs :
  is_Some (entries fs !! id) →
  (delete_profile id fs).2 = json (BDeleted "Profile deleted successfully")
  ∧ entries (delete_profile id fs).1 = delete id (entries fs)
  ∧ temp (delete_profile id fs).1 = temp fs
  ∧ (get_profile id (delete_profile id fs).1).2
    = failure 404 "Profile not found"
  ∧ delete_profile id (delete_profile id fs).1
    = ((delete_profile id fs).1, failure 404 "Profile not found")
  ∧ ∀ e b, put_profile e id b None (delete_profile id fs).1
           = ((delete_profile id fs).1, failure 404 "Profile not found").
Proof.
  intros [n Hn]. rewrite delete_profile_eq, Hn. simpl.
  set (fs' := {| profiles := Some (delete id (entries fs)); temp := temp fs |}).
  assert (Hgone : entries fs' !! id = None) by apply lookup_delete_eq.
  split; [done|]. split; [done|]. split; [done|]. split; [|split].
  - by rewrite get_profile_absent by by apply metadata_no_entry.
  - by rewrite delete_profile_eq, Hgone.
  - intros e b. rewrite update_no_file.
    apply update_not_found. by apply metadata_no_entry.
Qed.

Lemma delete_removes_profile_witness :
  is_Some (entries store2 !! "p1")
  ∧ entries (delete_profile "p1" store2).1 = delete "p1" (entries store2).
Proof.
  assert (H : is_Some (entries store2 !! "p1")).
  { vm_compute. eexists. reflexivity. }
  split; [exact H|]. exact (proj1 (proj2 (delete_removes_profile "p1" store2 H))).
Defined.



(** *** Reads *)

(** X3: Get and the listing never write: whatever they answer, the file
    system after the request is the file system before it. *)
Theorem reads_change_nothing Date_parse id fs :
  (get_profile id fs).1 = fs ∧ (get_profiles Date_parse fs).1 = fs.
Proof. split; [apply get_profile_state | apply get_profiles_state]. Qed.



(** X5: the note of a summary is never longer than 53 characters, and a
    note of at most 50 characters is listed as it is stored. *)
Theorem short_note_bounds note :
  (String.length (short_note note) ≤ 53)%nat
  ∧ ((String.length note ≤ 50)%nat → short_note note = note)
  ∧ ((50 < String.length note)%nat → String.length (short_note note) = 53%nat).
Proof.
  unfold short_note. rewrite length_append, substring0_length.
  destruct (Nat.ltb_spec 50 (String.length note)) as [Hlt|Hle].
  - change (String.length "...") with 3%nat.
    split; [lia|]. split; [lia|]. intros _. lia.
  - change (String.length "") with 0%nat.
    split; [lia|]. split; [|lia]. intros _.
    rewrite append_empty. by apply substring0_all.
Qed.

Lemma short_note_bounds_witness :
  (String.length "hello" ≤ 50)%nat ∧ short_note "hello" = "hello".
Proof.
  assert (H : (String.length "hello" ≤ 50)%nat) by (vm_compute; lia).
  split; [exact H|]. exact (proj1 (proj2 (short_note_bounds "hello")) H).
Defined.

(** *** Create *)

(** X6: a create request with an image that multer stores and with the
    four required fields succeeds, on any file system in which the fresh
    id does not name a plain file (the profiles directory itself may be
    missing): the answer carries the id and the link to the profile. *)
Theorem create_succeeds e b u fs :
  accepted u → ¬ some_missing b →
  (∀ c, entries fs !! uuid e ≠ Some (NFile c)) →
  (post_profiles e b (Some u) fs).2
  = json (BSuccess (uuid e) ("/profile.html?id=" ++ uuid e)
            "Profile created successfully").
Proof.
  intros Hacc Hv Hfree. pose proof (create_valid e b u fs Hacc Hv) as Hc.
  destruct (entries fs !! uuid e) as [[c|d]|] eqn:Hid.
  - by destruct (Hfree c).
  - destruct Hc as (fs' & r & -> & _). done.
  - destruct Hc as (fs' & r & -> & _). done.
Qed.

Lemma create_succeeds_witness :
  (post_profiles env0 form0 (Some jpeg) store_absent).2
  = json (BSuccess (uuid env0) ("/profile.html?id=" ++ uuid env0)
            "Profile created successfully").
Proof.
  apply (create_succeeds env0 form0 jpeg store_absent).
  - split; [vm_compute; reflexivity | vm_compute; discriminate].
  - intros [H|[H|[H|H]]]; destruct H; discriminate.
  - intros c. vm_compute. discriminate.
Defined.

(** X7: after a successful create, Get on the new id returns the record
    just written: the trimmed name, address and note, the date as sent,
    the contact, both timestamps, the normalised photo name, and the
    photo URL [/images/<id>/<photo>]. *)
Theorem create_then_get_returns_record e b f fs :
  status (post_profiles e b f fs).2 = 200 →
  ∃ u r,
    f = Some u
    ∧ get_profile (uuid e) (post_profiles e b f fs).1
      = ((post_profiles e b f fs).1, json (BProfile r))
    ∧ r !! "id" = Some (JStr (uuid e))
    ∧ r !! "name" = (λ s, JStr (JS.trim s)) <$> body_name b
    ∧ r !! "address" = (λ s, JStr (JS.trim s)) <$> body_address b
    ∧ r !! "note" = (λ s, JStr (JS.trim s)) <$> body_note b
    ∧ r !! "date" = JStr <$> body_date b
    ∧ r !! "contact" = Some (contact_value (body_contact b))
    ∧ r !! "createdAt" = Some (JStr (now1 e))
    ∧ r !! "updatedAt" = Some (JStr (now2 e))
    ∧ r !! "photo" = Some (JStr (photo_name u))
    ∧ r !! "photoUrl"
      = Some (JStr ("/images/" ++ uuid e ++ "/" ++ photo_name u)).
Proof.
  intros Hst. destruct (create_outcome e b f fs) as [[Hne _]|Hok]; [done|].
  destruct Hok as (u & r & n & a & o & -> & _ & _ & Hn & Ha & Ho & _ & Hdir & _ & _
                   & Hid & Hname & Haddr & Hco & Hph & Hdt & Hnote & Hcr & Hup).
  exists u, (<["photoUrl" := JStr (photoUrl r)]> r).
  split; [done|]. split.
  { apply get_profile_record. by eapply dir_metadata. }
  rewrite !lookup_insert_ne by discriminate. rewrite lookup_insert_eq.
  rewrite Hn, Ha, Ho. simpl. split_and!; try done.
  unfold photoUrl. by rewrite Hid, Hph.
Qed.

Lemma create_then_get_returns_record_witness :
  status (post_profiles env0 form0 (Some jpeg) empty_store).2 = 200
  ∧ ∃ u r,
      Some jpeg = Some u
      ∧ get_profile (uuid env0) (post_profiles env0 form0 (Some jpeg) empty_store).1
        = ((post_profiles env0 form0 (Some jpeg) empty_store).1, json (BProfile r))
      ∧ r !! "note" = (λ s, JStr (JS.trim s)) <$> body_note form0
      ∧ r !! "photoUrl"
        = Some (JStr ("/images/" ++ uuid env0 ++ "/" ++ photo_name u)).
Proof.
  assert (H : status (post_profiles env0 form0 (Some jpeg) empty_store).2 = 200).
  { vm_compute. reflexivity. }
  split; [exact H|].
  destruct (create_then_get_returns_record env0 form0 (Some jpeg) empty_store H)
    as (u & r & Hu & Hget & _ & _ & _ & Hnote & _ & _ & _ & _ & _ & Hurl).
  exists u, r. auto.
Defined.

(** X8: a successful create touches one entry of the profiles directory,
    the one named by the new id, and takes its upload out of the staging
    directory, whose other files stay. *)
Theorem create_touches_one_entry e b f fs :
  status (post_profiles e b f fs).2 = 200 →
  (∀ id, id ≠ uuid e →
     entries (post_profiles e b f fs).1 !! id = entries fs !! id)
  ∧ ∃ u, f = Some u
         ∧ temp (post_profiles e b f fs).1 !! uniqueName e u = None
         ∧ ∀ t, t ≠ uniqueName e u →
             temp (post_profiles e b f fs).1 !! t = temp fs !! t.
Proof.
  intros Hst. destruct (create_outcome e b f fs) as [[Hne _]|Hok]; [done|].
  destruct Hok as (u & r & n & a & o & -> & _ & _ & _ & _ & _ & _ & _ & Htmp
                   & Hoth & _).
  split; [done|]. exists u. split; [done|]. rewrite Htmp. split.
  - apply lookup_delete_eq.
  - intros t Ht. rewrite lookup_delete_ne, lookup_insert_ne by congruence. done.
Qed.

Lemma create_touches_one_entry_witness :
  status (post_profiles env0 form0 (Some jpeg) store2).2 = 200
  ∧ ∀ id, id ≠ uuid env0 →
      entries (post_profiles env0 form0 (Some jpeg) store2).1 !! id
      = entries store2 !! id.
Proof.
  assert (H : status (post_profiles env0 form0 (Some jpeg) store2).2 = 200).
  { vm_compute. reflexivity. }
  split; [exact H|].
  exact (proj1 (create_touches_one_entry env0 form0 (Some jpeg) store2 H)).
Defined.



(** X10: after a successful create on a store whose metadata files can
    all be read, the listing succeeds and has a summary of the new
    profile: its id, its date as sent, the photo URL and the trimmed note
    cut to 50 characters. *)
Theorem create_then_list_has_summary Date_parse e b f fs :
  status (post_profiles e b f fs).2 = 200 →
  (∀ id c, metadata fs id = Some c → readable c) →
  ∃ u l s,
    f = Some u
    ∧ get_profiles Date_parse (post_profiles e b f fs).1
      = ((post_profiles e b f fs).1, json (BProfiles l))
    ∧ s ∈ l
    ∧ sum_id s = Some (JStr (uuid e))
    ∧ sum_date s = JStr <$> body_date b
    ∧ Some (sum_note s) = (λ n, short_note (JS.trim n)) <$> body_note b
    ∧ sum_photo s = "/images/" ++ uuid e ++ "/" ++ photo_name u.
Proof.
  intros Hst Hall. destruct (create_outcome e b f fs) as [[Hne _]|Hok]; [done|].
  destruct Hok as (u & r & n & a & o & -> & _ & _ & Hn & Ha & Ho & _ & Hdir & _
                   & Hoth & Hid & Hname & Haddr & Hco & Hph & Hdt & Hnote & _).
  set (fs' := (post_profiles e b (Some u) fs).1) in *.
  assert (Hm : metadata fs' (uuid e) = Some (CJson r)) by by eapply dir_metadata.
  assert (Hall' : ∀ id c, metadata fs' id = Some c → readable c).
  { intros id c Hc. destruct (decide (id = uuid e)) as [->|Hne].
    - rewrite Hm in Hc. injection Hc as <-. by exists r, (JS.trim o).
    - apply (Hall id). by rewrite <- (proj1 (metadata_entries fs fs' id (Hoth id Hne))). }
  pose proof (all_readable_folders fs' Hall') as Hok.
  destruct (read_summary_record fs' (uuid e) r Hm) as (s & Hs & Hsum).
  { by exists r, (JS.trim o). }
  exists u, (sort (by_date Date_parse) (summaries_of fs' (folders_of fs'))), s.
  split; [done|]. split; [by apply list_handler_ok|]. split.
  { rewrite sort_perm. apply elem_of_summaries_of. exists (uuid e).
    split; [by eapply metadata_in_folders | done]. }
  unfold read_summary in Hs. rewrite Hm, Hnote in Hs. injection Hs as <-. simpl.
  rewrite Ho. simpl. split_and!; try done.
  unfold photoUrl. by rewrite Hid, Hph.
Qed.

Lemma create_then_list_has_summary_witness :
  ∃ u l s,
    Some jpeg = Some u
    ∧ get_profiles iso_date (post_profiles env0 form0 (Some jpeg) store2).1
      = ((post_profiles env0 form0 (Some jpeg) store2).1, json (BProfiles l))
    ∧ s ∈ l
    ∧ sum_id s = Some (JStr (uuid env0))
    ∧ sum_date s = JStr <$> body_date form0
    ∧ Some (sum_note s) = (λ n, short_note (JS.trim n)) <$> body_note form0
    ∧ sum_photo s = "/images/" ++ uuid env0 ++ "/" ++ photo_name u.
Proof.
  apply (create_then_list_has_summary iso_date env0 form0 (Some jpeg) store2).
  - vm_compute. reflexivity.
  - apply all_readable_true. vm_compute. reflexivity.
Defined.

(** *** Update *)

Lemma update_success_fields e id b f fs :
  status (put_profile e id b f fs).2 = 200 →
  is_Some (body_name b) ∧ is_Some (body_address b) ∧ is_Some (body_note b).
Proof.
  destruct f as [u|].
  - destruct (upload_cases u) as [Hr|[[Hf Hl]|Hacc]].
    { unfold put_profile. rewrite upload_refused by done. discriminate. }
    { unfold put_profile. rewrite upload_too_large by done. discriminate. }
    rewrite update_accepted by done. intros Hst.
    apply update_handler_needs in Hst as (d & r & _ & _ & Hn & Ha & Ho & _). done.
  - rewrite update_no_file. intros Hst.
    apply update_handler_needs in Hst as (d & r & _ & _ & Hn & Ha & Ho & _). done.
Qed.

(** X11: an update that is not answered 200, whatever the reason (an
    unknown id, a metadata file that does not parse, a field the form
    lacks, a record without a photo name, a refused or oversized file),
    leaves the profiles directory exactly as it was. *)
Theorem failed_update_leaves_profiles e id b f fs :
  status (put_profile e id b f fs).2 ≠ 200 →
  profiles (put_profile e id b f fs).1 = profiles fs.
Proof.
  intros Hst. by destruct (update_outcome e id b f fs) as [[_ Hp]|Hok].
Qed.

Lemma failed_update_leaves_profiles_witness :
  status (put_profile env0 "p2" form_edit (Some png) store_corrupt).2 ≠ 200
  ∧ profiles (put_profile env0 "p2" form_edit (Some png) store_corrupt).1
    = profiles store_corrupt.
Proof.
  assert (H : status (put_profile env0 "p2" form_edit (Some png)
                        store_corrupt).2 ≠ 200).
  { vm_compute. discriminate. }
  split; [exact H|].
  exact (failed_update_leaves_profiles env0 "p2" form_edit (Some png)
           store_corrupt H).
Defined.

(** X12: a successful update touches the directory of its id only.  The
    other entries of the profiles directory stay; in the directory
    itself every file other than the metadata file, the previous photo
    and the new photo stays; and the upload, if any, leaves the staging
    directory, whose other files stay. *)
Theorem update_touches_one_directory e id b f fs :
  status (put_profile e id b f fs).2 = 200 →
  (∀ id', id' ≠ id →
     entries (put_profile e id b f fs).1 !! id' = entries fs !! id')
  ∧ match f with
    | None => temp (put_profile e id b f fs).1 = temp fs
    | Some u =>
        temp (put_profile e id b f fs).1 !! uniqueName e u = None
        ∧ (∀ t, t ≠ uniqueName e u →
             temp (put_profile e id b f fs).1 !! t = temp fs !! t)
        ∧ ∀ r name,
            metadata fs id = Some (CJson r) →
            name ≠ "profile.json" → name ≠ photo_name u →
            r !! "photo" ≠ Some (JStr name) →
            file_of (put_profile e id b f fs).1 id name = file_of fs id name
    end.
Proof.
  intros Hst.
  destruct (update_success e id b f fs Hst) as (d & r & Hd & Hjson & _ & Hoth & Hf).
  split; [done|]. destruct f as [u|].
  - destruct Hf as (_ & old & Hold & Hdir & Htmp). rewrite Htmp.
    split; [apply lookup_delete_eq|]. split.
    + intros t Ht. rewrite lookup_delete_ne, lookup_insert_ne by congruence. done.
    + intros r' name Hm Hn1 Hn2 Hn3.
      apply metadata_dir in Hm as (d' & Hd' & Hjson').
      rewrite Hd in Hd'. injection Hd' as <-.
      rewrite Hjson in Hjson'. injection Hjson' as <-.
      unfold file_of. rewrite Hdir, Hd.
      rewrite !lookup_insert_ne by congruence.
      apply lookup_delete_ne. congruence.
  - by destruct Hf as [_ Htmp].
Qed.

Lemma update_touches_one_directory_witness :
  status (put_profile env0 "p1" form_edit (Some png) store2).2 = 200
  ∧ ∀ id', id' ≠ "p1" →
      entries (put_profile env0 "p1" form_edit (Some png) store2).1 !! id'
      = entries store2 !! id'.
Proof.
  assert (H : status (put_profile env0 "p1" form_edit (Some png) store2).2 = 200).
  { vm_compute. reflexivity. }
  split; [exact H|].
  exact (proj1 (update_touches_one_directory env0 "p1" form_edit (Some png)
                  store2 H)).
Defined.

(** X13: an update of an id without a metadata file answers 404; the
    upload middleware has run before the handler, so an image sent with
    the request is left in the staging directory. *)
Theorem update_unknown_id e id b fs :
  metadata fs id = None →
  put_profile e id b None fs = (fs, failure 404 "Profile not found")
  ∧ ∀ u, accepted u →
      put_profile e id b (Some u) fs
      = (staged e u fs, failure 404 "Profile not found").
Proof.
  intros Hm. split.
  - rewrite update_no_file. by apply update_not_found.
  - intros u Hacc. rewrite update_accepted by done. by apply update_not_found.
Qed.

Lemma update_unknown_id_witness :
  put_profile env0 "p3" form_edit None store2
  = (store2, failure 404 "Profile not found")
  ∧ ∀ u, accepted u →
      put_profile env0 "p3" form_edit (Some u) store2
      = (staged env0 u store2, failure 404 "Profile not found").
Proof.
  apply (update_unknown_id env0 "p3" form_edit store2). vm_compute. reflexivity.
Defined.

(** X14: the update handler does not check its form: when [name],
    [address] or [note] is absent, trimming it throws and the answer is
    the generic 500 of the handler, not a validation error; the stored
    record is not rewritten. *)
Theorem update_missing_field_answers_500 e id b fs r :
  metadata fs id = Some (CJson r) →
  body_name b = None ∨ body_address b = None ∨ body_note b = None →
  put_profile e id b None fs = (fs, failure 500 "Failed to update profile")
  ∧ ∀ u, accepted u →
      put_profile e id b (Some u) fs
      = (staged e u fs, failure 500 "Failed to update profile").
Proof.
  intros Hm Hf. split.
  - rewrite update_no_file. by eapply update_field_missing.
  - intros u Hacc. rewrite update_accepted by done.
    by eapply update_field_missing.
Qed.

Lemma update_missing_field_answers_500_witness :
  put_profile env0 "p1" form_no_name None store2
  = (store2, failure 500 "Failed to update profile").
Proof.
  apply (update_missing_field_answers_500 env0 "p1" form_no_name store2
           (record_of "p1" "2024-01-01" "hello" "photo.jpg")).
  - vm_compute. reflexivity.
  - left. reflexivity.
Defined.

(** X15: after a successful update, Get on the id returns the rewritten
    record: the trimmed name, address and note, the date as sent (none
    when the form has none), the contact, [updatedAt] at the time of the
    update, and the photo URL built from the stored id and photo name. *)
Theorem update_then_get_returns_record e id b f fs :
  status (put_profile e id b f fs).2 = 200 →
  ∃ r,
    get_profile id (put_profile e id b f fs).1
    = ((put_profile e id b f fs).1, json (BProfile r))
    ∧ r !! "name" = (λ s, JStr (JS.trim s)) <$> body_name b
    ∧ r !! "address" = (λ s, JStr (JS.trim s)) <$> body_address b
    ∧ r !! "note" = (λ s, JStr (JS.trim s)) <$> body_note b
    ∧ r !! "date" = JStr <$> body_date b
    ∧ r !! "contact" = Some (contact_value (body_contact b))
    ∧ r !! "updatedAt" = Some (JStr (now1 e))
    ∧ (∀ u, f = Some u → r !! "photo" = Some (JStr (photo_name u)))
    ∧ r !! "photoUrl"
      = Some (JStr ("/images/" ++ to_str (r !! "id") ++ "/"
                    ++ to_str (r !! "photo"))).
Proof.
  intros Hst.
  destruct (update_success_fields e id b f fs Hst) as ([n Hn] & [a Ha] & [o Ho]).
  destruct (update_success e id b f fs Hst) as (d & r & _ & _ & _ & _ & Hf).
  pose proof (updated_record_fields e b r) as (Hu & Hc & Hname & Haddr & Hnote & Hdt).
  rewrite Hn, Ha, Ho in *. simpl in *.
  assert (Hgen : ∀ r0,
    metadata (put_profile e id b f fs).1 id = Some (CJson r0) →
    r0 !! "name" = Some (JStr (JS.trim n)) →
    r0 !! "address" = Some (JStr (JS.trim a)) →
    r0 !! "note" = Some (JStr (JS.trim o)) →
    r0 !! "date" = JStr <$> body_date b →
    r0 !! "contact" = Some (contact_value (body_contact b)) →
    r0 !! "updatedAt" = Some (JStr (now1 e)) →
    (∀ u, f = Some u → r0 !! "photo" = Some (JStr (photo_name u))) →
    ∃ r1,
      get_profile id (put_profile e id b f fs).1
      = ((put_profile e id b f fs).1, json (BProfile r1))
      ∧ r1 !! "name" = Some (JStr (JS.trim n))
      ∧ r1 !! "address" = Some (JStr (JS.trim a))
      ∧ r1 !! "note" = Some (JStr (JS.trim o))
      ∧ r1 !! "date" = JStr <$> body_date b
      ∧ r1 !! "contact" = Some (contact_value (body_contact b))
      ∧ r1 !! "updatedAt" = Some (JStr (now1 e))
      ∧ (∀ u, f = Some u → r1 !! "photo" = Some (JStr (photo_name u)))
      ∧ r1 !! "photoUrl"
        = Some (JStr ("/images/" ++ to_str (r1 !! "id") ++ "/"
                      ++ to_str (r1 !! "photo")))).
  { intros r0 Hm H1 H2 H3 H4 H5 H6 H7.
    exists (<["photoUrl" := JStr (photoUrl r0)]> r0).
    split; [by apply get_profile_record|].
    rewrite lookup_insert_eq.
    rewrite !(lookup_insert_ne r0 "photoUrl") by discriminate.
    by split_and!. }
  destruct f as [u|].
  - destruct Hf as (_ & old & _ & Hdir & _).
    apply (Hgen (<["photo" := JStr (photo_name u)]> (updated_record e b r)));
      rewrite ?lookup_insert_ne by discriminate; try done.
    + by eapply dir_metadata.
    + intros u' [= <-]. apply lookup_insert_eq.
  - destruct Hf as [Hdir _].
    apply (Hgen (updated_record e b r)); try done.
    by eapply dir_metadata.
Qed.

Lemma update_then_get_returns_record_witness :
  status (put_profile env0 "p1" form_edit (Some png) store2).2 = 200
  ∧ ∃ r,
      get_profile "p1" (put_profile env0 "p1" form_edit (Some png) store2).1
      = ((put_profile env0 "p1" form_edit (Some png) store2).1,
         json (BProfile r))
      ∧ r !! "name" = (λ s, JStr (JS.trim s)) <$> body_name form_edit
      ∧ r !! "photoUrl"
        = Some (JStr ("/images/" ++ to_str (r !! "id") ++ "/"
                      ++ to_str (r !! "photo"))).
Proof.
  assert (H : status (put_profile env0 "p1" form_edit (Some png) store2).2 = 200).
  { vm_compute. reflexivity. }
  split; [exact H|].
  destruct (update_then_get_returns_record env0 "p1" form_edit (Some png) store2 H)
    as (r & Hget & Hname & _ & _ & _ & _ & _ & _ & Hurl).
  exists r. auto.
Defined.

(** X16: the update handler requires no field to be non-empty: on a
    stored record, a form that has [name], [address] and [note], be they
    empty strings, is accepted without a file; empty values are stored as
    empty strings and a form without a date leaves the record without
    one. *)
Theorem update_accepts_empty_fields e id b fs r :
  metadata fs id = Some (CJson r) →
  is_Some (body_name b) → is_Some (body_address b) → is_Some (body_note b) →
  (put_profile e id b None fs).2
  = json (BSuccess id (link_of id) "Profile updated successfully")
  ∧ ∃ r',
      metadata (put_profile e id b None fs).1 id = Some (CJson r')
      ∧ r' !! "name" = (λ s, JStr (JS.trim s)) <$> body_name b
      ∧ r' !! "address" = (λ s, JStr (JS.trim s)) <$> body_address b
      ∧ r' !! "note" = (λ s, JStr (JS.trim s)) <$> body_note b
      ∧ r' !! "date" = JStr <$> body_date b.
Proof.
  intros Hm Hn Ha Ho. apply metadata_dir in Hm as (d & Hd & Hjson).
  rewrite update_no_file, (update_handler_plain e id b fs d r) by done. simpl.
  split; [done|]. exists (updated_record e b r).
  split; [eapply dir_metadata; apply dir_of_set_dir|].
  pose proof (updated_record_fields e b r) as (_ & _ & Hname & Haddr & Hnote & Hdt).
  destruct Hn as [n Hn], Ha as [a Ha], Ho as [o Ho].
  rewrite Hn, Ha, Ho in *. by split_and!.
Qed.

Lemma update_accepts_empty_fields_witness :
  (put_profile env0 "p1" form_empty_name None store2).2
  = json (BSuccess "p1" (link_of "p1") "Profile updated successfully")
  ∧ ∃ r',
      metadata (put_profile env0 "p1" form_empty_name None store2).1 "p1"
      = Some (CJson r')
      ∧ r' !! "name" = (λ s, JStr (JS.trim s)) <$> body_name form_empty_name
      ∧ r' !! "address" = (λ s, JStr (JS.trim s)) <$> body_address form_empty_name
      ∧ r' !! "note" = (λ s, JStr (JS.trim s)) <$> body_note form_empty_name
      ∧ r' !! "date" = JStr <$> body_date form_empty_name.
Proof.
  apply (update_accepts_empty_fields env0 "p1" form_empty_name store2
           (record_of "p1" "2024-01-01" "hello" "photo.jpg")).
  - vm_compute. reflexivity.
  - eexists. reflexivity.
  - eexists. reflexivity.
  - eexists. reflexivity.
Defined.

(** *** The upload middleware before the handlers *)

(** X17: the upload middleware answers before either handler runs.  A
    file part whose content type is not an image is answered with the
    generic 500 on create and on update alike, with nothing written, even
    when the form is incomplete or the id unknown; a file over the size
    limit is answered 400 on both routes and the profiles directory is
    left as it was. *)
Theorem upload_errors_precede_handlers e id b u fs :
  (fileFilter u = false →
   post_profiles e b (Some u) fs = (fs, failure 500 "Internal server error")
   ∧ put_profile e id b (Some u) fs = (fs, failure 500 "Internal server error"))
  ∧ (fileFilter u = true → ¬ (size u ≤ fileSize)%N →
     (post_profiles e b (Some u) fs).2 = failure 400 "File too large. Max 5MB"
     ∧ (put_profile e id b (Some u) fs).2 = failure 400 "File too large. Max 5MB"
     ∧ profiles (post_profiles e b (Some u) fs).1 = profiles fs
     ∧ profiles (put_profile e id b (Some u) fs).1 = profiles fs).
Proof.
  split.
  - intros Hf. split; [by apply create_refused|].
    unfold put_profile. by rewrite upload_refused.
  - intros Hf Hl. rewrite create_too_large by done.
    unfold put_profile. by rewrite upload_too_large.
Qed.

Lemma upload_errors_precede_handlers_witness :
  put_profile env0 "nobody" form_no_name (Some text_file) store2
  = (store2, failure 500 "Internal server error").
Proof.
  apply (proj1 (upload_errors_precede_handlers env0 "nobody" form_no_name
                  text_file store2)).
  vm_compute. reflexivity.
Defined.

(** *** What the store keeps *)






(** X19: reading the dates decides the order of a listing and nothing
    else: under two readings of date strings the listing of a store has
    the same status, and when it succeeds the same summaries up to their
    order; no profile is dropped or listed twice because of its date. *)
Theorem listing_content_ignores_dates Date_parse1 Date_parse2 fs :
  status (get_profiles Date_parse1 fs).2 = status (get_profiles Date_parse2 fs).2
  ∧ ∀ l1 l2,
      get_profiles Date_parse1 fs = (fs, json (BProfiles l1)) →
      get_profiles Date_parse2 fs = (fs, json (BProfiles l2)) →
      l1 ≡ₚ l2.
Proof.
  split.
  - destruct (folders_dichotomy fs (folders_of fs)) as [Hok|Hbad].
    + by rewrite !list_handler_ok.
    + by rewrite !list_handler_throw.
  - intros l1 l2 H1 H2.
    apply list_success_inv in H1 as [_ ->]. apply list_success_inv in H2 as [_ ->].
    by rewrite !sort_perm.
Qed.

Lemma listing_content_ignores_dates_witness :
  status (get_profiles iso_date store2).2
  = status (get_profiles (λ _, None) store2).2.
Proof.
  exact (proj1 (listing_content_ignores_dates iso_date (λ _, None) store2)).
Defined.



Lemma updated_record_idem e b r :
  updated_record e b (updated_record e b r) = updated_record e b r.
Proof.
  apply map_eq. intros k.
  pose proof (updated_record_fields e b r) as (H1 & H2 & H3 & H4 & H5 & H6).
  pose proof (updated_record_fields e b (updated_record e b r))
    as (G1 & G2 & G3 & G4 & G5 & G6).
  destruct (decide (k = "name")) as [->|?]; [congruence|].
  destruct (decide (k = "address")) as [->|?]; [congruence|].
  destruct (decide (k = "contact")) as [->|?]; [congruence|].
  destruct (decide (k = "date")) as [->|?]; [congruence|].
  destruct (decide (k = "note")) as [->|?]; [congruence|].
  destruct (decide (k = "updatedAt")) as [->|?]; [congruence|].
  apply updated_record_other. rewrite !not_elem_of_cons.
  split_and!; try done. apply not_elem_of_nil.
Qed.

(** X21: an update without an image is idempotent: sending the same form
    again at the same time leaves the file system and the answer of the
    first update. *)
Theorem update_without_file_is_idempotent e id b fs :
  status (put_profile e id b None fs).2 = 200 →
  put_profile e id b None (put_profile e id b None fs).1
  = put_profile e id b None fs.
Proof.
  rewrite !update_no_file. intros Hst.
  apply update_handler_needs in Hst as (d & r & Hd & Hjson & Hn & Ha & Ho & _).
  rewrite (update_handler_plain e id b fs d r) by done. simpl.
  rewrite (update_handler_plain e id b _
             (<["profile.json" := CJson (updated_record e b r)]> d)
             (updated_record e b r));
    [| apply dir_of_set_dir | apply lookup_insert_eq | done | done | done].
  rewrite updated_record_idem, insert_insert_eq.
  f_equal. unfold set_dir. simpl. by rewrite insert_insert_eq.
Qed.

Lemma update_without_file_is_idempotent_witness :
  put_profile env0 "p1" form_edit None (put_profile env0 "p1" form_edit None store2).1
  = put_profile env0 "p1" form_edit None store2.
Proof.
  apply (update_without_file_is_idempotent env0 "p1" form_edit store2).
  vm_compute. reflexivity.
Defined.
